(** * HID keyboard: key events to USB HID boot-keyboard reports

    Shallow embedding of [app/src/hid_keyboard.c].  C integers are [Z],
    [unsigned char] buffers are [list Z] with every stored value reduced
    modulo 256, the [bool keys[]] table is a [list bool] read and written by
    index.  A computation that trips an [assert] or leaves the bounds of an
    array has no result ([None]); the environment of one call (what [malloc]
    returns, what the uninitialised stack slot holds, what the transport
    answers) is an explicit argument. *)

From Stdlib Require Import ZArith Lia.
From stdpp Require Import base tactics option numbers list sorting.

Local Open Scope Z_scope.

(** ** The part of SDL2 the file uses (SDL_events.h, SDL_keycode.h,
       SDL_scancode.h) *)

Module SDL.

Definition SDL_KEYDOWN : Z := 0x300.
Definition SDL_KEYUP : Z := 0x301.

Definition KMOD_LSHIFT : Z := 0x0001.
Definition KMOD_RSHIFT : Z := 0x0002.
Definition KMOD_LCTRL : Z := 0x0040.
Definition KMOD_RCTRL : Z := 0x0080.
Definition KMOD_LALT : Z := 0x0100.
Definition KMOD_RALT : Z := 0x0200.
Definition KMOD_LGUI : Z := 0x0400.
Definition KMOD_RGUI : Z := 0x0800.

Definition SDL_SCANCODE_A : Z := 4.
Definition SDL_SCANCODE_LCTRL : Z := 224.
Definition SDL_SCANCODE_LSHIFT : Z := 225.
Definition SDL_SCANCODE_LALT : Z := 226.
Definition SDL_SCANCODE_LGUI : Z := 227.
Definition SDL_SCANCODE_RCTRL : Z := 228.
Definition SDL_SCANCODE_RSHIFT : Z := 229.
Definition SDL_SCANCODE_RALT : Z := 230.
Definition SDL_SCANCODE_RGUI : Z := 231.

(** The field [mod] of the C struct is [mod_] here ([mod] is a notation). *)
Record SDL_Keysym := { scancode : Z; mod_ : Z }.

Record SDL_KeyboardEvent := {
  type : Z;
  repeat : Z;
  keysym : SDL_Keysym
}.

End SDL.
Import SDL.

(** ** C idioms *)

(** Conversion of an [int] to [unsigned char]. *)
Definition to_uchar (v : Z) : Z := v mod 256.

(** [assert(b)]: no result when [b] is false. *)
Definition c_assert (b : bool) : option unit :=
  if b then Some tt else None.

(** [a[i]] as an rvalue. *)
Definition load {A} (a : list A) (i : nat) : option A := a !! i.

(** [a[i] = v]. *)
Definition store {A} (a : list A) (i : nat) (v : A) : option (list A) :=
  if decide (i < length a)%nat then Some (<[i:=v]> a) else None.

(** [memset(&a[off], c, n)] on an array whose cells hold one byte each. *)
Definition memset {A} (a : list A) (off : nat) (c : A) (n : nat)
  : option (list A) :=
  if decide (off + n ≤ length a)%nat
  then Some (list_inserts off (replicate n c) a)
  else None.

(** [malloc(n)]: [NULL], or [n] bytes of indeterminate content. *)
Definition malloc (n : nat) (heap : option (nat → Z)) : option (list Z) :=
  (λ content, content <$> seq 0 n) <$> heap.

(** ** Constants of hid_keyboard.c *)

Definition HID_KEYBOARD_ACCESSORY_ID : Z := 1.

Definition HID_KEYBOARD_MODIFIER_NONE : Z := 0x00.
Definition HID_KEYBOARD_MODIFIER_LEFT_CONTROL : Z := Z.shiftl 1 0.
Definition HID_KEYBOARD_MODIFIER_LEFT_SHIFT : Z := Z.shiftl 1 1.
Definition HID_KEYBOARD_MODIFIER_LEFT_ALT : Z := Z.shiftl 1 2.
Definition HID_KEYBOARD_MODIFIER_LEFT_GUI : Z := Z.shiftl 1 3.
Definition HID_KEYBOARD_MODIFIER_RIGHT_CONTROL : Z := Z.shiftl 1 4.
Definition HID_KEYBOARD_MODIFIER_RIGHT_SHIFT : Z := Z.shiftl 1 5.
Definition HID_KEYBOARD_MODIFIER_RIGHT_ALT : Z := Z.shiftl 1 6.
Definition HID_KEYBOARD_MODIFIER_RIGHT_GUI : Z := Z.shiftl 1 7.

Definition HID_KEYBOARD_INDEX_MODIFIER : nat := 0.
Definition HID_KEYBOARD_INDEX_KEYS : nat := 2.

Definition HID_KEYBOARD_MAX_KEYS : nat := 6.
Definition HID_KEYBOARD_EVENT_SIZE : nat := 2 + HID_KEYBOARD_MAX_KEYS.

Definition HID_KEYBOARD_RESERVED : Z := 0x00.
Definition HID_KEYBOARD_ERROR_ROLL_OVER : Z := 0x01.

(** Modelled from the spec: [HID_KEYBOARD_KEYS] is defined in hid_keyboard.h,
    which is not among the sources.  The spec gives the key-code range of the
    table as 0..101, and the comments of [keyboard_report_desc] read
    [HID_KEYBOARD_KEYS - 1] as 101. *)
Definition HID_KEYBOARD_KEYS : nat := 102.

(** ** Data *)

(** [struct hid_event]; [buffer] is [None] for a null pointer and otherwise
    holds the bytes of the block it points to. *)
Record hid_event := {
  from_accessory_id : Z;
  buffer : option (list Z);
  size : Z
}.

(** What the transport has been asked to do, oldest request first. *)
Inductive aoa_request :=
  | setup_hid (accessory_id : Z) (report_desc : list Z) (report_desc_size : Z)
  | push_hid_event (event : hid_event)
  | unregister_hid (accessory_id : Z).

Definition aoa_t := list aoa_request.

(** [struct hid_keyboard]; [key_processor] tells whether the operations
    table has been installed. *)
Record hid_keyboard := {
  key_processor : bool;
  aoa : aoa_t;
  keys : list bool
}.

(** The environment of one call of the key processor. *)
Record env := {
  malloc_result : option (nat → Z);
  stack_hid_event : hid_event;
  aoa_result : bool
}.

(** Modelled from the spec: [aoa_setup_hid] is defined in aoa.c, which is not
    among the sources.  The spec lists it as
    [register_hid_function(logical_id, descriptor_bytes, descriptor_length)
    -> success]; the request is recorded and the answer comes from the
    environment. *)
Definition aoa_setup_hid (a : aoa_t) (id : Z) (desc : list Z) (len : Z)
    (answer : bool) : bool * aoa_t :=
  (answer, a ++ [setup_hid id desc len]).

(** Modelled from the spec: [aoa_push_hid_event] is defined in aoa.c, which
    is not among the sources.  The spec lists it as
    [send_report(logical_id, buffer, length) -> success]; the request is
    recorded and the answer comes from the environment. *)
Definition aoa_push_hid_event (a : aoa_t) (ev : hid_event) (answer : bool)
  : bool * aoa_t :=
  (answer, a ++ [push_hid_event ev]).

(** Modelled from the spec: [aoa_unregister_hid] is defined in aoa.c, which
    is not among the sources.  The spec lists it as
    [unregister_hid_function(logical_id) -> success]; the request is
    recorded and the answer comes from the environment. *)
Definition aoa_unregister_hid (a : aoa_t) (id : Z) (answer : bool)
  : bool * aoa_t :=
  (answer, a ++ [unregister_hid id]).

(** ** The report descriptor *)

Definition keyboard_report_desc : list Z := [
  (* Usage Page (Generic Desktop) *)
  0x05; 0x01;
  (* Usage (Keyboard) *)
  0x09; 0x06;
  (* Collection (Application) *)
  0xA1; 0x01;
  (* Usage Page (Key Codes) *)
  0x05; 0x07;
  (* Usage Minimum (224) *)
  0x19; 0xE0;
  (* Usage Maximum (231) *)
  0x29; 0xE7;
  (* Logical Minimum (0) *)
  0x15; 0x00;
  (* Logical Maximum (1) *)
  0x25; 0x01;
  (* Report Size (1) *)
  0x75; 0x01;
  (* Report Count (8) *)
  0x95; 0x08;
  (* Input (Data, Variable, Absolute): Modifier byte *)
  0x81; 0x02;
  (* Report Size (8) *)
  0x75; 0x08;
  (* Report Count (1) *)
  0x95; 0x01;
  (* Input (Constant): Reserved byte *)
  0x81; 0x01;
  (* Usage Page (LEDs) *)
  0x05; 0x08;
  (* Usage Minimum (1) *)
  0x19; 0x01;
  (* Usage Maximum (5) *)
  0x29; 0x05;
  (* Report Size (1) *)
  0x75; 0x01;
  (* Report Count (5) *)
  0x95; 0x05;
  (* Output (Data, Variable, Absolute): LED report *)
  0x91; 0x02;
  (* Report Size (3) *)
  0x75; 0x03;
  (* Report Count (1) *)
  0x95; 0x01;
  (* Output (Constant): LED report padding *)
  0x91; 0x01;
  (* Usage Page (Key Codes) *)
  0x05; 0x07;
  (* Usage Minimum (0) *)
  0x19; 0x00;
  (* Usage Maximum (101) *)
  0x29; to_uchar (Z.of_nat HID_KEYBOARD_KEYS - 1);
  (* Logical Minimum (0) *)
  0x15; 0x00;
  (* Logical Maximum (101) *)
  0x25; to_uchar (Z.of_nat HID_KEYBOARD_KEYS - 1);
  (* Report Size (8) *)
  0x75; 0x08;
  (* Report Count (6) *)
  0x95; to_uchar (Z.of_nat HID_KEYBOARD_MAX_KEYS);
  (* Input (Data, Array): Keys *)
  0x81; 0x00;
  (* End Collection *)
  0xC0
].

(** [ARRAY_LEN(a)]. *)
Definition ARRAY_LEN {A} (a : list A) : Z := Z.of_nat (length a).

(** ** Building a report *)

(** Lines 130-141.  The outer [option] is the run of the function, the inner
    one the pointer it returns. *)
Definition create_hid_keyboard_event (heap : option (nat → Z))
  : option (option (list Z)) :=
  match malloc HID_KEYBOARD_EVENT_SIZE heap with
  | None => Some None
  | Some buffer =>
      buffer ← store buffer HID_KEYBOARD_INDEX_MODIFIER
                 (to_uchar HID_KEYBOARD_MODIFIER_NONE);
      buffer ← store buffer 1%nat (to_uchar HID_KEYBOARD_RESERVED);
      buffer ← memset buffer HID_KEYBOARD_INDEX_KEYS (to_uchar 0)
                 HID_KEYBOARD_MAX_KEYS;
      Some (Some buffer)
  end.

(** [if (mod & flag) modifiers |= bit;] *)
Definition or_if_set (mod_ flag modifiers bit : Z) : Z :=
  if negb (Z.land mod_ flag =? 0) then to_uchar (Z.lor modifiers bit)
  else modifiers.

(** Lines 143-171. *)
Definition sdl_keymod_to_hid_modifiers (mod_ : Z) : Z :=
  let modifiers := to_uchar HID_KEYBOARD_MODIFIER_NONE in
  let modifiers :=
    or_if_set mod_ KMOD_LCTRL modifiers HID_KEYBOARD_MODIFIER_LEFT_CONTROL in
  let modifiers :=
    or_if_set mod_ KMOD_LSHIFT modifiers HID_KEYBOARD_MODIFIER_LEFT_SHIFT in
  let modifiers :=
    or_if_set mod_ KMOD_LALT modifiers HID_KEYBOARD_MODIFIER_LEFT_ALT in
  let modifiers :=
    or_if_set mod_ KMOD_LGUI modifiers HID_KEYBOARD_MODIFIER_LEFT_GUI in
  let modifiers :=
    or_if_set mod_ KMOD_RCTRL modifiers HID_KEYBOARD_MODIFIER_RIGHT_CONTROL in
  let modifiers :=
    or_if_set mod_ KMOD_RSHIFT modifiers HID_KEYBOARD_MODIFIER_RIGHT_SHIFT in
  let modifiers :=
    or_if_set mod_ KMOD_RALT modifiers HID_KEYBOARD_MODIFIER_RIGHT_ALT in
  let modifiers :=
    or_if_set mod_ KMOD_RGUI modifiers HID_KEYBOARD_MODIFIER_RIGHT_GUI in
  modifiers.

(** The loop [for (int i = 0; i < HID_KEYBOARD_KEYS; ++i)] of
    [convert_hid_keyboard_event], with [n] iterations left to run from
    index [i]; leaving the recursion is the [return true] inside the loop. *)
Fixpoint scan_keys (n : nat) (i : nat) (keys : list bool) (buffer : list Z)
    (keys_pressed_count : nat) : option (list Z) :=
  match n with
  | O => Some buffer
  | S n' =>
      pressed ← load keys i;
      if pressed : bool then
        if decide (HID_KEYBOARD_MAX_KEYS ≤ keys_pressed_count)%nat then
          memset buffer HID_KEYBOARD_INDEX_KEYS
            (to_uchar HID_KEYBOARD_ERROR_ROLL_OVER) HID_KEYBOARD_MAX_KEYS
        else
          buffer ← store buffer
                     (HID_KEYBOARD_INDEX_KEYS + keys_pressed_count)%nat
                     (to_uchar (Z.of_nat i));
          scan_keys n' (S i) keys buffer (S keys_pressed_count)
      else scan_keys n' (S i) keys buffer keys_pressed_count
  end.

(** Lines 173-217.  The result is the returned flag, the keyboard and the
    [struct hid_event] behind the pointer argument. *)
Definition convert_hid_keyboard_event (kb : hid_keyboard)
    (hev : hid_event) (event : SDL_KeyboardEvent) (e : env)
  : option (bool * hid_keyboard * hid_event) :=
  created ← create_hid_keyboard_event (malloc_result e);
  match created with
  | None =>
      Some (false, kb,
            {| from_accessory_id := from_accessory_id hev;
               buffer := None;
               size := size hev |})
  | Some buffer =>
      let size := Z.of_nat HID_KEYBOARD_EVENT_SIZE in
      let modifiers := sdl_keymod_to_hid_modifiers (mod_ (keysym event)) in
      let scancode := scancode (keysym event) in
      _ ← c_assert (0 <=? scancode);
      keys ←
        (if scancode <? Z.of_nat HID_KEYBOARD_KEYS then
           store (keys kb) (Z.to_nat scancode) (type event =? SDL_KEYDOWN)
         else Some (keys kb));
      buffer ← store buffer HID_KEYBOARD_INDEX_MODIFIER modifiers;
      buffer ← scan_keys HID_KEYBOARD_KEYS 0 keys buffer 0;
      Some (true,
            {| key_processor := key_processor kb; aoa := aoa kb;
               keys := keys |},
            {| from_accessory_id := from_accessory_id hev;
               buffer := Some buffer;
               size := size |})
  end.

(** ** Dispatch *)

(** Lines 219-222. *)
Definition scancode_is_modifier (scancode : Z) : bool :=
  (SDL_SCANCODE_LCTRL <=? scancode) && (scancode <=? SDL_SCANCODE_RGUI).

(** Lines 224-247; the logging call has no effect on the state. *)
Definition hid_keyboard_convert_event (kb : hid_keyboard)
    (hev : hid_event) (event : SDL_KeyboardEvent) (e : env)
  : option (bool * hid_keyboard * hid_event) :=
  let hev :=
    {| from_accessory_id := HID_KEYBOARD_ACCESSORY_ID;
       buffer := buffer hev;
       size := size hev |} in
  let scancode := scancode (keysym event) in
  _ ← c_assert (0 <=? scancode);
  if (scancode <? Z.of_nat HID_KEYBOARD_KEYS) || scancode_is_modifier scancode
  then convert_hid_keyboard_event kb hev event e
  else Some (false, kb, hev).

(** Lines 249-267.  [DOWNCAST(kp)] is the keyboard itself; the local
    [struct hid_event] starts with what the stack holds. *)
Definition sc_key_processor_process_key (kb : hid_keyboard)
    (event : SDL_KeyboardEvent) (e : env) : option hid_keyboard :=
  if negb (repeat event =? 0) then Some kb
  else
    '(converted, kb, hev) ←
      hid_keyboard_convert_event kb (stack_hid_event e) event e;
    if converted : bool then
      let '(_, a) := aoa_push_hid_event (aoa kb) hev (aoa_result e) in
      Some {| key_processor := key_processor kb; aoa := a; keys := keys kb |}
    else Some kb.

(** Lines 269-276. *)
Definition sc_key_processor_process_text (kb : hid_keyboard) : hid_keyboard :=
  kb.

(** ** Lifecycle *)

(** Lines 278-301. *)
Definition hid_keyboard_init (kb : hid_keyboard) (a : aoa_t) (answer : bool)
  : option (bool * hid_keyboard) :=
  let '(ok, a) :=
    aoa_setup_hid a HID_KEYBOARD_ACCESSORY_ID keyboard_report_desc
      (ARRAY_LEN keyboard_report_desc) answer in
  if negb ok then
    Some (false,
          {| key_processor := key_processor kb; aoa := a; keys := keys kb |})
  else
    keys ← memset (keys kb) 0%nat false HID_KEYBOARD_KEYS;
    Some (true, {| key_processor := true; aoa := a; keys := keys |}).

(** Lines 303-310. *)
Definition hid_keyboard_destroy (kb : hid_keyboard) (answer : bool)
  : hid_keyboard :=
  let '(_, a) := aoa_unregister_hid (aoa kb) HID_KEYBOARD_ACCESSORY_ID answer in
  {| key_processor := key_processor kb; aoa := a; keys := keys kb |}.

(** ** Runs of the key processor *)

(** The key processor called on one event after the other, each call in its
    own environment. *)
Fixpoint process_keys (kb : hid_keyboard)
    (steps : list (SDL_KeyboardEvent * env)) : option hid_keyboard :=
  match steps with
  | [] => Some kb
  | (event, e) :: steps =>
      kb ← sc_key_processor_process_key kb event e;
      process_keys kb steps
  end.

(** ** Vocabulary of the statements *)

(** The indices [j] with [i <= j < i + n] whose entry is [true], ascending. *)
Definition pressed_in (i n : nat) (keys : list bool) : list nat :=
  filter (λ j, keys !! j = Some true) (seq i n).

(** The key codes whose table entry is [true], in ascending order. *)
Definition pressed_codes (keys : list bool) : list nat :=
  pressed_in 0 (length keys) keys.

(** Bytes 2..7 of a report. *)
Definition key_slots (report : list Z) : list Z :=
  take HID_KEYBOARD_MAX_KEYS (drop HID_KEYBOARD_INDEX_KEYS report).

(** The byte stored for key code [j]. *)
Definition code_byte (j : nat) : Z := to_uchar (Z.of_nat j).

(** What the six slots hold once the scan has run over [codes], given the
    slots [written] before. *)
Definition slots_after (written : list Z) (codes : list nat) : list Z :=
  if decide (length written + length codes ≤ HID_KEYBOARD_MAX_KEYS)%nat
  then written ++ (code_byte <$> codes)
         ++ replicate
              (HID_KEYBOARD_MAX_KEYS - length written - length codes) 0
  else replicate HID_KEYBOARD_MAX_KEYS HID_KEYBOARD_ERROR_ROLL_OVER.

(** The table as line 188 leaves it. *)
Definition keys_after (keys : list bool) (event : SDL_KeyboardEvent)
  : list bool :=
  if scancode (keysym event) <? Z.of_nat HID_KEYBOARD_KEYS
  then <[Z.to_nat (scancode (keysym event)) := (type event =? SDL_KEYDOWN)]>
         keys
  else keys.

(** A key event that is not a repeat. *)
Definition key_event (ty sc md : Z) : SDL_KeyboardEvent :=
  {| type := ty; repeat := 0; keysym := {| scancode := sc; mod_ := md |} |}.

(** The keyboard as a successful [hid_keyboard_init] leaves it. *)
Definition kb_reset (a : aoa_t) : hid_keyboard :=
  {| key_processor := true; aoa := a;
     keys := replicate HID_KEYBOARD_KEYS false |}.

(** An environment in which [malloc] succeeds. *)
Definition env_ok (content : nat → Z) (garbage : hid_event) (answer : bool)
  : env :=
  {| malloc_result := Some content; stack_hid_event := garbage;
     aoa_result := answer |}.

(** A step on a key of the table that is not a repeat and for which
    [malloc] succeeds. *)
Definition key_step (s : SDL_KeyboardEvent * env) : Prop :=
  repeat s.1 = 0 ∧
  0 ≤ scancode (keysym s.1) < Z.of_nat HID_KEYBOARD_KEYS ∧
  is_Some (malloc_result s.2).

(** Such a step that presses its key. *)
Definition press_step (s : SDL_KeyboardEvent * env) : Prop :=
  key_step s ∧ type s.1 = SDL_KEYDOWN.

(** The table index of the key of an event. *)
Definition key_index (event : SDL_KeyboardEvent) : nat :=
  Z.to_nat (scancode (keysym event)).

(** In the spec's words, the keys "currently pressed" after a sequence of
    press and release events: a key is pressed when the last event on it was
    a press; a key no event was about is as the table had it before. *)
Definition currently_pressed (keys : list bool)
    (events : list SDL_KeyboardEvent) (k : nat) : bool :=
  match last (filter (λ event, key_index event = k) events) with
  | Some event => type event =? SDL_KEYDOWN
  | None => bool_decide (keys !! k = Some true)
  end.

(** The report sent last. *)
Definition last_report (a : aoa_t) : option (list Z) :=
  match last a with
  | Some (push_hid_event ev) => buffer ev
  | _ => None
  end.

(** The report for an event once the table holds [keys]. *)
Definition report_of (event : SDL_KeyboardEvent) (keys : list bool)
  : list Z :=
  sdl_keymod_to_hid_modifiers (mod_ (keysym event))
    :: HID_KEYBOARD_RESERVED :: slots_after [] (pressed_codes keys).

(** The envelope that carries it. *)
Definition envelope_of (event : SDL_KeyboardEvent) (keys : list bool)
  : hid_event :=
  {| from_accessory_id := HID_KEYBOARD_ACCESSORY_ID;
     buffer := Some (report_of event keys);
     size := Z.of_nat HID_KEYBOARD_EVENT_SIZE |}.

(** A key code the dispatch lets through. *)
Definition supported (scancode : Z) : Prop :=
  0 ≤ scancode < Z.of_nat HID_KEYBOARD_KEYS
  ∨ SDL_SCANCODE_LCTRL ≤ scancode ≤ SDL_SCANCODE_RGUI.

(** ** Sample inputs *)

(** An uninitialised [struct hid_event] on the stack. *)
Definition stack_garbage : hid_event :=
  {| from_accessory_id := 0x5A5A; buffer := None; size := -1 |}.

(** An environment where [malloc] returns a block filled with 0xAA and the
    transport accepts the report. *)
Definition env_sample : env := env_ok (λ _, 0xAA) stack_garbage true.

(** An environment where [malloc] returns [NULL]. *)
Definition env_null : env :=
  {| malloc_result := None; stack_hid_event := stack_garbage;
     aoa_result := true |}.

Definition press_a : SDL_KeyboardEvent :=
  key_event SDL_KEYDOWN SDL_SCANCODE_A 0.
Definition release_a : SDL_KeyboardEvent :=
  key_event SDL_KEYUP SDL_SCANCODE_A KMOD_LSHIFT.
Definition press_lshift : SDL_KeyboardEvent :=
  key_event SDL_KEYDOWN SDL_SCANCODE_LSHIFT KMOD_LSHIFT.

(** Side conditions on the sample inputs. *)
Ltac sample_step :=
  repeat split;
  first
    [ reflexivity
    | by eexists
    | unfold press_a, SDL_SCANCODE_A, HID_KEYBOARD_KEYS;
      cbn [key_event keysym scancode fst snd]; lia ].

(** ** Vocabulary of the further properties *)

(** The bit a flag contributes at position [i]. *)
Definition flag_bit (flag : bool) (i : Z) : Z :=
  if flag then Z.shiftl 1 i else 0.

(** The modifier byte with one bit per flag, bit 0 for Left-Control up to
    bit 7 for Right-GUI. *)
Definition mask_of_flags
    (lctrl lshift lalt lgui rctrl rshift ralt rgui : bool) : Z :=
  Z.lor (flag_bit lctrl 0)
    (Z.lor (flag_bit lshift 1)
       (Z.lor (flag_bit lalt 2)
          (Z.lor (flag_bit lgui 3)
             (Z.lor (flag_bit rctrl 4)
                (Z.lor (flag_bit rshift 5)
                   (Z.lor (flag_bit ralt 6) (flag_bit rgui 7))))))).

(** [mod & flag] as the C conditions read it. *)
Definition flag_set (mod_ flag : Z) : bool := negb (Z.land mod_ flag =? 0).

(** The eight flags [sdl_keymod_to_hid_modifiers] looks at. *)
Definition modifier_flags : list Z :=
  [KMOD_LCTRL; KMOD_LSHIFT; KMOD_LALT; KMOD_LGUI;
   KMOD_RCTRL; KMOD_RSHIFT; KMOD_RALT; KMOD_RGUI].

(** The Num-Lock flag of SDL_keycode.h, one of the flags the function does
    not look at. *)
Definition KMOD_NUM : Z := 0x1000.

(** The conditions under which the entry point sends a report. *)
Definition sends_report (event : SDL_KeyboardEvent) (e : env) : Prop :=
  repeat event = 0
  ∧ supported (scancode (keysym event))
  ∧ is_Some (malloc_result e).

(** An event the entry point accepts without tripping an assertion. *)
Definition admissible (event : SDL_KeyboardEvent) : Prop :=
  repeat event ≠ 0 ∨ 0 ≤ scancode (keysym event).

(** A value that fits an [unsigned char]. *)
Definition is_byte (c : Z) : bool := (0 <=? c) && (c <? 256).

(** A request that sends a boot-keyboard report: accessory id 1, announced
    size 8, a buffer of 8 bytes. *)
Definition is_boot_report (r : aoa_request) : bool :=
  match r with
  | push_hid_event ev =>
      (from_accessory_id ev =? HID_KEYBOARD_ACCESSORY_ID)
      && (size ev =? Z.of_nat HID_KEYBOARD_EVENT_SIZE)
      && match buffer ev with
         | Some report =>
             bool_decide (length report = HID_KEYBOARD_EVENT_SIZE)
             && forallb is_byte report
         | None => false
         end
  | _ => false
  end.

(** The accessory id a request names. *)
Definition request_id (r : aoa_request) : Z :=
  match r with
  | setup_hid id _ _ => id
  | push_hid_event ev => from_accessory_id ev
  | unregister_hid id => id
  end.

(** A table with the seven keys 4..10 pressed. *)
Definition keys_seven : list bool :=
  list_inserts 4 (replicate 7 true) (replicate HID_KEYBOARD_KEYS false).

(** Tables with the three keys 7..9 pressed, with the six keys 4..9
    pressed, and with the keys 1 and 5 pressed. *)
Definition keys_three : list bool :=
  list_inserts 7 (replicate 3 true) (replicate HID_KEYBOARD_KEYS false).
Definition keys_six : list bool :=
  list_inserts 4 (replicate 6 true) (replicate HID_KEYBOARD_KEYS false).
Definition keys_one_five : list bool :=
  <[1%nat:=true]> (<[5%nat:=true]> (replicate HID_KEYBOARD_KEYS false)).

(** A keyboard in use with a given table. *)
Definition kb_with (keys : list bool) : hid_keyboard :=
  {| key_processor := true; aoa := []; keys := keys |}.

(** Side conditions on the sample inputs: bounds of a key code, and the
    conditions for a report to be sent. *)
Ltac sample_code :=
  unfold press_a, release_a, press_lshift, SDL_SCANCODE_A,
    SDL_SCANCODE_LSHIFT, SDL_SCANCODE_LCTRL, SDL_SCANCODE_RGUI,
    HID_KEYBOARD_KEYS;
  cbn [key_event keysym scancode fst snd]; lia.

Ltac sample_send :=
  split;
  [reflexivity
  |split; [first [left; sample_code | right; sample_code]|by eexists]].

(** The eight modifier key codes of SDL_scancode.h. *)
Definition modifier_scancodes : list Z :=
  [SDL_SCANCODE_LCTRL; SDL_SCANCODE_LSHIFT; SDL_SCANCODE_LALT;
   SDL_SCANCODE_LGUI; SDL_SCANCODE_RCTRL; SDL_SCANCODE_RSHIFT;
   SDL_SCANCODE_RALT; SDL_SCANCODE_RGUI].

(** ** The table of pressed keys *)

Section pressed.
Implicit Types (keys : list bool) (i j n : nat).

Lemma pressed_in_0 i keys : pressed_in i 0 keys = [].
Proof. reflexivity. Qed.

Lemma pressed_in_S_true i n keys :
  keys !! i = Some true →
  pressed_in i (S n) keys = i :: pressed_in (S i) n keys.
Proof. intros Hi. unfold pressed_in. cbn [seq]. by rewrite filter_cons_True. Qed.

Lemma pressed_in_S_false i n keys :
  keys !! i ≠ Some true →
  pressed_in i (S n) keys = pressed_in (S i) n keys.
Proof. intros Hi. unfold pressed_in. cbn [seq]. by rewrite filter_cons_False. Qed.

Lemma elem_of_pressed_in i n keys j :
  j ∈ pressed_in i n keys ↔ (i ≤ j < i + n)%nat ∧ keys !! j = Some true.
Proof.
  unfold pressed_in. rewrite list_elem_of_filter, elem_of_seq. tauto.
Qed.

Lemma elem_of_pressed_codes keys j :
  j ∈ pressed_codes keys ↔ keys !! j = Some true.
Proof.
  unfold pressed_codes. rewrite elem_of_pressed_in. split; [tauto|].
  intros Hj. split; [|done]. apply lookup_lt_Some in Hj. lia.
Qed.

Lemma pressed_in_sorted i n keys : StronglySorted lt (pressed_in i n keys).
Proof.
  revert i. induction n as [|n IH]; intros i; [constructor|].
  destruct (decide (keys !! i = Some true)) as [Hi|Hi].
  - rewrite pressed_in_S_true by done. constructor; [apply IH|].
    apply Forall_forall. intros j Hj%elem_of_pressed_in. lia.
  - rewrite pressed_in_S_false by done. apply IH.
Qed.

Lemma pressed_codes_sorted keys : StronglySorted lt (pressed_codes keys).
Proof. apply pressed_in_sorted. Qed.

Lemma pressed_in_NoDup i n keys : NoDup (pressed_in i n keys).
Proof. apply NoDup_filter, NoDup_seq. Qed.

Lemma pressed_in_bound i n keys j :
  j ∈ pressed_in i n keys → (j < length keys)%nat.
Proof. intros [_ Hj]%elem_of_pressed_in. by apply lookup_lt_Some in Hj. Qed.

Lemma pressed_codes_replicate_false n : pressed_codes (replicate n false) = [].
Proof.
  apply elem_of_nil_inv. intros j Hj%elem_of_pressed_codes.
  apply lookup_replicate in Hj as [? _]. done.
Qed.
End pressed.

(** ** The scan *)

Section scan.
Implicit Types (keys : list bool) (written : list Z) (m r : Z).

Lemma store_lt {A} (a : list A) (i : nat) (v : A) :
  (i < length a)%nat → store a i v = Some (<[i:=v]> a).
Proof. intros Hi. unfold store. by rewrite decide_True. Qed.

Lemma memset_slots m r (old : list Z) (c : Z) :
  length old = HID_KEYBOARD_MAX_KEYS →
  memset (m :: r :: old) HID_KEYBOARD_INDEX_KEYS c HID_KEYBOARD_MAX_KEYS
  = Some (m :: r :: replicate HID_KEYBOARD_MAX_KEYS c).
Proof.
  intros Hold. unfold memset, HID_KEYBOARD_INDEX_KEYS.
  rewrite decide_True by (cbn [length]; lia).
  rewrite !list_inserts_cons. f_equal. f_equal. f_equal.
  rewrite <-(app_nil_r old), list_inserts_0_r, app_nil_r; [done|].
  by rewrite length_replicate.
Qed.

Lemma store_next_slot m r written (v : Z) :
  (length written < HID_KEYBOARD_MAX_KEYS)%nat →
  store
    (m :: r :: written
       ++ replicate (HID_KEYBOARD_MAX_KEYS - length written) 0)
    (HID_KEYBOARD_INDEX_KEYS + length written) v
  = Some
      (m :: r :: (written ++ [v])
         ++ replicate (HID_KEYBOARD_MAX_KEYS - length (written ++ [v])) 0).
Proof.
  intros Hlt. rewrite store_lt.
  2: { cbn [length]. rewrite length_app, length_replicate.
       unfold HID_KEYBOARD_INDEX_KEYS. lia. }
  f_equal. unfold HID_KEYBOARD_INDEX_KEYS. cbn [Nat.add].
  change (<[S (S (length written)):=v]> (m :: r :: ?l))
    with (m :: r :: <[length written:=v]> l).
  f_equal. f_equal.
  rewrite insert_app_r_alt by lia. rewrite Nat.sub_diag.
  rewrite length_app. cbn [length].
  replace (HID_KEYBOARD_MAX_KEYS - length written)%nat
    with (S (HID_KEYBOARD_MAX_KEYS - (length written + 1)))%nat by lia.
  cbn [replicate list_insert]. by rewrite <-app_assoc.
Qed.

(** The loop invariant: bytes 0 and 1 are never touched, the slots hold
    what has been written so far followed by zeros. *)
Lemma scan_keys_inv n : ∀ i keys m r written,
  (i + n ≤ length keys)%nat →
  (length written ≤ HID_KEYBOARD_MAX_KEYS)%nat →
  scan_keys n i keys
    (m :: r :: written
       ++ replicate (HID_KEYBOARD_MAX_KEYS - length written) 0)
    (length written)
  = Some (m :: r :: slots_after written (pressed_in i n keys)).
Proof.
  induction n as [|n IH]; intros i keys m r written Hn Hw.
  - cbn [scan_keys]. rewrite pressed_in_0. unfold slots_after.
    rewrite decide_True by (cbn [length]; lia).
    cbn [fmap list_fmap length app]. by rewrite Nat.sub_0_r.
  - cbn [scan_keys]. unfold load.
    destruct (lookup_lt_is_Some_2 keys i ltac:(lia)) as [b Hb].
    rewrite Hb. cbn [mbind option_bind]. destruct b.
    + rewrite pressed_in_S_true by done.
      destruct (decide (HID_KEYBOARD_MAX_KEYS ≤ length written)%nat)
        as [Hfull|Hroom].
      * rewrite memset_slots.
        2: { rewrite length_app, length_replicate. lia. }
        unfold slots_after. rewrite decide_False by (cbn [length]; lia).
        done.
      * rewrite store_next_slot by lia. cbn [mbind option_bind].
        replace (S (length written)) with (length (written ++ [code_byte i]))
          by (rewrite length_app; cbn [length]; lia).
        rewrite IH.
        2: lia.
        2: { rewrite length_app. cbn [length]. lia. }
        f_equal. f_equal. f_equal. unfold slots_after.
        rewrite length_app. cbn [length].
        destruct (decide (length written + 1
                          + length (pressed_in (S i) n keys)
                          ≤ HID_KEYBOARD_MAX_KEYS)%nat).
        -- rewrite decide_True by lia. cbn [fmap list_fmap].
           rewrite <-app_assoc. cbn [app]. do 3 f_equal. f_equal. lia.
        -- by rewrite decide_False by lia.
    + rewrite pressed_in_S_false by congruence. apply IH; lia.
Qed.

(** The whole scan, from the buffer [create_hid_keyboard_event] returns
    with the modifier byte stored. *)
Lemma scan_keys_fresh keys m :
  length keys = HID_KEYBOARD_KEYS →
  scan_keys HID_KEYBOARD_KEYS 0 keys [m; 0; 0; 0; 0; 0; 0; 0] 0
  = Some (m :: 0 :: slots_after [] (pressed_codes keys)).
Proof.
  intros Hlen.
  pose proof (scan_keys_inv HID_KEYBOARD_KEYS 0 keys m 0 []) as H.
  cbn [length app] in H. unfold pressed_codes. rewrite Hlen.
  apply H; [lia|unfold HID_KEYBOARD_MAX_KEYS; lia].
Qed.
End scan.

(** ** One conversion *)

Section convert.
Implicit Types (kb : hid_keyboard) (hev : hid_event)
  (event : SDL_KeyboardEvent) (e : env).

Lemma create_hid_keyboard_event_ok (content : nat → Z) :
  create_hid_keyboard_event (Some content)
  = Some (Some [0; 0; 0; 0; 0; 0; 0; 0]).
Proof. reflexivity. Qed.

Lemma create_hid_keyboard_event_null :
  create_hid_keyboard_event None = Some None.
Proof. reflexivity. Qed.

Lemma bind_ret {A B} (x : A) (f : A → option B) : Some x ≫= f = f x.
Proof. reflexivity. Qed.

Lemma store_modifier (m : Z) :
  store [0; 0; 0; 0; 0; 0; 0; 0] HID_KEYBOARD_INDEX_MODIFIER m
  = Some [m; 0; 0; 0; 0; 0; 0; 0].
Proof. reflexivity. Qed.

Lemma keys_after_length keys event :
  length (keys_after keys event) = length keys.
Proof. unfold keys_after. case_match; [apply length_insert|done]. Qed.

Lemma keys_after_out_of_table keys event :
  Z.of_nat HID_KEYBOARD_KEYS ≤ scancode (keysym event) →
  keys_after keys event = keys.
Proof.
  intros Hsc. unfold keys_after.
  by rewrite (proj2 (Z.ltb_ge _ _)) by done.
Qed.

Lemma convert_hid_keyboard_event_null kb hev event e :
  malloc_result e = None →
  convert_hid_keyboard_event kb hev event e
  = Some (false, kb,
          {| from_accessory_id := from_accessory_id hev;
             buffer := None; size := size hev |}).
Proof.
  intros He. unfold convert_hid_keyboard_event.
  by rewrite He, create_hid_keyboard_event_null.
Qed.

Lemma convert_hid_keyboard_event_ok kb hev event e content :
  length (keys kb) = HID_KEYBOARD_KEYS →
  malloc_result e = Some content →
  0 ≤ scancode (keysym event) →
  convert_hid_keyboard_event kb hev event e
  = Some (true,
          {| key_processor := key_processor kb; aoa := aoa kb;
             keys := keys_after (keys kb) event |},
          {| from_accessory_id := from_accessory_id hev;
             buffer := Some (report_of event (keys_after (keys kb) event));
             size := Z.of_nat HID_KEYBOARD_EVENT_SIZE |}).
Proof.
  intros Hlen He Hsc. unfold convert_hid_keyboard_event.
  rewrite He, create_hid_keyboard_event_ok. cbn [mbind option_bind].
  rewrite (proj2 (Z.leb_le _ _)) by done.
  cbn [c_assert mbind option_bind].
  assert ((if scancode (keysym event) <? Z.of_nat HID_KEYBOARD_KEYS
           then store (keys kb) (Z.to_nat (scancode (keysym event)))
                  (type event =? SDL_KEYDOWN)
           else Some (keys kb))
          = Some (keys_after (keys kb) event)) as ->.
  { unfold keys_after.
    destruct (scancode (keysym event) <? Z.of_nat HID_KEYBOARD_KEYS)
      eqn:Hin; [|done].
    apply Z.ltb_lt in Hin. apply store_lt. lia. }
  rewrite bind_ret, store_modifier, bind_ret, scan_keys_fresh.
  2: { rewrite keys_after_length. exact Hlen. }
  rewrite bind_ret. reflexivity.
Qed.
End convert.

(** ** Dispatch of one event *)

Section dispatch.
Implicit Types (kb : hid_keyboard) (hev : hid_event)
  (event : SDL_KeyboardEvent) (e : env).

Lemma supported_test (sc : Z) :
  0 ≤ sc →
  (sc <? Z.of_nat HID_KEYBOARD_KEYS) || scancode_is_modifier sc = true
  ↔ supported sc.
Proof.
  intros Hsc. unfold supported, scancode_is_modifier.
  rewrite orb_true_iff, andb_true_iff, Z.ltb_lt, !Z.leb_le. intuition lia.
Qed.

Lemma supported_nonneg (sc : Z) : supported sc → 0 ≤ sc.
Proof.
  unfold supported, SDL_SCANCODE_LCTRL, SDL_SCANCODE_RGUI. lia.
Qed.

Lemma hid_keyboard_convert_event_supported kb hev event e content :
  length (keys kb) = HID_KEYBOARD_KEYS →
  malloc_result e = Some content →
  supported (scancode (keysym event)) →
  hid_keyboard_convert_event kb hev event e
  = Some (true,
          {| key_processor := key_processor kb; aoa := aoa kb;
             keys := keys_after (keys kb) event |},
          envelope_of event (keys_after (keys kb) event)).
Proof.
  intros Hlen He Hsup. pose proof (supported_nonneg _ Hsup) as Hsc.
  unfold hid_keyboard_convert_event.
  rewrite (proj2 (Z.leb_le _ _)) by done.
  unfold c_assert at 1. rewrite bind_ret.
  rewrite (proj2 (supported_test _ Hsc)) by done.
  by rewrite (convert_hid_keyboard_event_ok _ _ _ _ content).
Qed.

Lemma hid_keyboard_convert_event_null kb hev event e :
  malloc_result e = None →
  0 ≤ scancode (keysym event) →
  hid_keyboard_convert_event kb hev event e
  = Some (false, kb,
          {| from_accessory_id := HID_KEYBOARD_ACCESSORY_ID;
             buffer :=
               if (scancode (keysym event) <? Z.of_nat HID_KEYBOARD_KEYS)
                  || scancode_is_modifier (scancode (keysym event))
               then None else buffer hev;
             size := size hev |}).
Proof.
  intros He Hsc. unfold hid_keyboard_convert_event.
  rewrite (proj2 (Z.leb_le _ _)) by done.
  unfold c_assert at 1. rewrite bind_ret.
  case_match; [|done]. by rewrite convert_hid_keyboard_event_null.
Qed.

Lemma hid_keyboard_convert_event_unsupported kb hev event e :
  0 ≤ scancode (keysym event) →
  ¬ supported (scancode (keysym event)) →
  hid_keyboard_convert_event kb hev event e
  = Some (false, kb,
          {| from_accessory_id := HID_KEYBOARD_ACCESSORY_ID;
             buffer := buffer hev; size := size hev |}).
Proof.
  intros Hsc Hun. unfold hid_keyboard_convert_event.
  rewrite (proj2 (Z.leb_le _ _)) by done.
  unfold c_assert at 1. rewrite bind_ret.
  case_match eqn:Htest; [|done].
  by apply supported_test in Htest.
Qed.

Lemma process_key_repeat kb event e :
  repeat event ≠ 0 → sc_key_processor_process_key kb event e = Some kb.
Proof.
  intros Hrep. unfold sc_key_processor_process_key.
  by rewrite (proj2 (Z.eqb_neq _ _)) by done.
Qed.

Lemma process_key_supported kb event e content :
  length (keys kb) = HID_KEYBOARD_KEYS →
  malloc_result e = Some content →
  repeat event = 0 →
  supported (scancode (keysym event)) →
  sc_key_processor_process_key kb event e
  = Some {| key_processor := key_processor kb;
            aoa := aoa kb
                   ++ [push_hid_event
                         (envelope_of event (keys_after (keys kb) event))];
            keys := keys_after (keys kb) event |}.
Proof.
  intros Hlen He Hrep Hsup. unfold sc_key_processor_process_key.
  rewrite Hrep. cbn [Z.eqb negb].
  rewrite (hid_keyboard_convert_event_supported _ _ _ _ content) by done.
  by rewrite bind_ret.
Qed.

Lemma process_key_null kb event e :
  malloc_result e = None →
  0 ≤ scancode (keysym event) →
  sc_key_processor_process_key kb event e = Some kb.
Proof.
  intros He Hsc. unfold sc_key_processor_process_key.
  case_match; [done|].
  rewrite hid_keyboard_convert_event_null by done. by rewrite bind_ret.
Qed.

Lemma process_key_unsupported kb event e :
  0 ≤ scancode (keysym event) →
  ¬ supported (scancode (keysym event)) →
  sc_key_processor_process_key kb event e = Some kb.
Proof.
  intros Hsc Hun. unfold sc_key_processor_process_key.
  case_match; [done|].
  rewrite hid_keyboard_convert_event_unsupported by done.
  by rewrite bind_ret.
Qed.
End dispatch.

(** ** The six slots *)

Section slots.
Implicit Types (keys : list bool) (codes : list nat).

Lemma code_byte_small (j : nat) : (j < 256)%nat → code_byte j = Z.of_nat j.
Proof. intros Hj. unfold code_byte, to_uchar. apply Z.mod_small. lia. Qed.

Lemma code_bytes_pressed keys :
  (length keys ≤ 256)%nat →
  code_byte <$> pressed_codes keys = Z.of_nat <$> pressed_codes keys.
Proof.
  intros Hlen. apply Forall_fmap_ext, Forall_forall.
  intros j Hj%pressed_in_bound. apply code_byte_small. lia.
Qed.

Lemma length_slots_after codes :
  length (slots_after [] codes) = HID_KEYBOARD_MAX_KEYS.
Proof.
  unfold slots_after. case_decide as Hfit.
  - cbn [app length] in *.
    rewrite length_app, length_fmap, length_replicate. lia.
  - apply length_replicate.
Qed.

Lemma slots_after_fit codes :
  (length codes ≤ HID_KEYBOARD_MAX_KEYS)%nat →
  slots_after [] codes
  = (code_byte <$> codes)
      ++ replicate (HID_KEYBOARD_MAX_KEYS - length codes) 0.
Proof.
  intros Hfit. unfold slots_after.
  rewrite decide_True by (cbn [length]; lia).
  cbn [app length]. by rewrite Nat.sub_0_r.
Qed.

Lemma slots_after_overflow codes :
  (HID_KEYBOARD_MAX_KEYS < length codes)%nat →
  slots_after [] codes
  = replicate HID_KEYBOARD_MAX_KEYS HID_KEYBOARD_ERROR_ROLL_OVER.
Proof.
  intros Hover. unfold slots_after.
  by rewrite decide_False by (cbn [length]; lia).
Qed.

Lemma key_slots_report_of event keys :
  key_slots (report_of event keys) = slots_after [] (pressed_codes keys).
Proof.
  unfold key_slots, report_of, HID_KEYBOARD_INDEX_KEYS. cbn [drop].
  apply take_ge. by rewrite length_slots_after.
Qed.

Lemma length_report_of event keys :
  length (report_of event keys) = HID_KEYBOARD_EVENT_SIZE.
Proof.
  unfold report_of. cbn [length]. by rewrite length_slots_after.
Qed.

(** When the keys fit, the slots are the pressed codes and zeros. *)
Lemma key_slots_fit event keys :
  length keys = HID_KEYBOARD_KEYS →
  (length (pressed_codes keys) ≤ HID_KEYBOARD_MAX_KEYS)%nat →
  key_slots (report_of event keys)
  = (Z.of_nat <$> pressed_codes keys)
      ++ replicate (HID_KEYBOARD_MAX_KEYS - length (pressed_codes keys)) 0.
Proof.
  intros Hlen Hfit.
  rewrite key_slots_report_of, slots_after_fit by done.
  rewrite code_bytes_pressed; [done|].
  rewrite Hlen. unfold HID_KEYBOARD_KEYS. lia.
Qed.
End slots.

(** ** Runs *)

Section runs.
Implicit Types (kb : hid_keyboard) (event : SDL_KeyboardEvent)
  (steps : list (SDL_KeyboardEvent * env)) (keys : list bool).

Lemma process_keys_app kb steps1 steps2 :
  process_keys kb (steps1 ++ steps2)
  = process_keys kb steps1 ≫= λ kb', process_keys kb' steps2.
Proof.
  revert kb. induction steps1 as [|[event e] steps1 IH]; intros kb.
  - reflexivity.
  - cbn [app process_keys].
    destruct (sc_key_processor_process_key kb event e) as [kb'|].
    + rewrite !bind_ret. apply IH.
    + reflexivity.
Qed.

Lemma key_step_supported s : key_step s → supported (scancode (keysym s.1)).
Proof. intros (_ & Hsc & _). by left. Qed.

Lemma foldl_keys_after_length keys (events : list SDL_KeyboardEvent) :
  length (foldl keys_after keys events) = length keys.
Proof.
  revert keys. induction events as [|event events IH]; intros keys; [done|].
  cbn [foldl]. by rewrite IH, keys_after_length.
Qed.

(** A run of key steps: it has a result, the table is the fold of line
    188 over the events, and the request sent last carries the report of
    the last event over the final table. *)
Lemma process_keys_key_steps steps : ∀ kb,
  length (keys kb) = HID_KEYBOARD_KEYS →
  Forall key_step steps →
  ∃ kb',
    process_keys kb steps = Some kb'
    ∧ keys kb' = foldl keys_after (keys kb) steps.*1
    ∧ ∀ s, last steps = Some s →
           last (aoa kb')
           = Some (push_hid_event (envelope_of s.1 (keys kb'))).
Proof.
  induction steps as [|[event e] steps IH] using rev_ind; intros kb Hlen Hall.
  - exists kb. by split_and!.
  - rewrite Forall_app, Forall_singleton in Hall.
    destruct Hall as [Hall Hlast].
    destruct (IH kb Hlen Hall) as (kb1 & Hrun & Hkeys & _).
    pose proof Hlast as (Hrep & Hsc & [content He]). cbn [fst snd] in *.
    rewrite process_keys_app, Hrun, bind_ret. cbn [process_keys].
    rewrite (process_key_supported _ _ _ content);
      [|by rewrite Hkeys, foldl_keys_after_length
       |done|done|by apply (key_step_supported (event, e))].
    rewrite bind_ret. eexists. split; [done|]. cbn [keys aoa]. split.
    + by rewrite fmap_app, foldl_app, Hkeys.
    + intros s. rewrite !last_snoc. by intros [= <-].
Qed.

(** Pressing keys sets their entries and leaves the others. *)
Lemma foldl_keys_after_press (events : list SDL_KeyboardEvent) : ∀ keys,
  length keys = HID_KEYBOARD_KEYS →
  Forall (λ event, type event = SDL_KEYDOWN
                   ∧ 0 ≤ scancode (keysym event)
                         < Z.of_nat HID_KEYBOARD_KEYS) events →
  ∀ k, foldl keys_after keys events !! k
       = if decide (k ∈ key_index <$> events) then Some true
         else keys !! k.
Proof.
  induction events as [|event events IH]; intros keys Hlen Hall k.
  - cbn [foldl fmap list_fmap]. by rewrite decide_False by apply not_elem_of_nil.
  - rewrite Forall_cons in Hall. destruct Hall as [[Hty Hsc] Hall].
    cbn [foldl]. rewrite IH by (by rewrite ?keys_after_length).
    rewrite fmap_cons.
    assert (keys_after keys event = <[key_index event:=true]> keys) as ->.
    { unfold keys_after, key_index.
      rewrite (proj2 (Z.ltb_lt _ _)) by lia. by rewrite Hty. }
    destruct (decide (k ∈ key_index <$> events)) as [Hin|Hout].
    + by rewrite decide_True by (by apply list_elem_of_further).
    + destruct (decide (k = key_index event)) as [->|Hne].
      * rewrite decide_True by apply list_elem_of_here.
        apply list_lookup_insert_eq. unfold key_index. lia.
      * rewrite decide_False by (rewrite elem_of_cons; tauto).
        by apply list_lookup_insert_ne.
Qed.

(** The table after a run of presses does not depend on their order. *)
Lemma press_order_keys keys (events1 events2 : list SDL_KeyboardEvent) :
  length keys = HID_KEYBOARD_KEYS →
  Forall (λ event, type event = SDL_KEYDOWN
                   ∧ 0 ≤ scancode (keysym event)
                         < Z.of_nat HID_KEYBOARD_KEYS) events1 →
  events1 ≡ₚ events2 →
  foldl keys_after keys events1 = foldl keys_after keys events2.
Proof.
  intros Hlen Hall Hperm. apply list_eq. intros k.
  rewrite !foldl_keys_after_press by (by rewrite <-?Hperm).
  destruct (decide (k ∈ key_index <$> events1)) as [Hin|Hout].
  - by rewrite decide_True by (by rewrite <-Hperm).
  - by rewrite decide_False by (by rewrite <-Hperm).
Qed.

(** Line 188, entry by entry. *)
Lemma keys_after_lookup keys event (k : nat) :
  length keys = HID_KEYBOARD_KEYS →
  0 ≤ scancode (keysym event) →
  keys_after keys event !! k
  = if decide (k = key_index event
               ∧ scancode (keysym event) < Z.of_nat HID_KEYBOARD_KEYS)
    then Some (type event =? SDL_KEYDOWN)
    else keys !! k.
Proof.
  intros Hlen Hsc. unfold keys_after.
  destruct (Z.ltb_spec (scancode (keysym event)) (Z.of_nat HID_KEYBOARD_KEYS))
    as [Hin|Hout].
  - fold (key_index event).
    destruct (decide (k = key_index event)) as [->|Hne].
    + rewrite decide_True by done.
      apply list_lookup_insert_eq. unfold key_index. lia.
    + rewrite decide_False by tauto. by apply list_lookup_insert_ne.
  - by rewrite decide_False by lia.
Qed.

(** The table after a run holds [true] exactly at the keys currently
    pressed. *)
Lemma foldl_keys_after_currently_pressed
    (events : list SDL_KeyboardEvent) : ∀ keys,
  length keys = HID_KEYBOARD_KEYS →
  Forall (λ event, 0 ≤ scancode (keysym event)
                       < Z.of_nat HID_KEYBOARD_KEYS) events →
  ∀ k, foldl keys_after keys events !! k = Some true
       ↔ currently_pressed keys events k = true.
Proof.
  induction events as [|event events IH] using rev_ind;
    intros keys Hlen Hall k.
  - unfold currently_pressed. cbn [foldl filter list_filter last].
    by rewrite bool_decide_eq_true.
  - rewrite Forall_app, Forall_singleton in Hall.
    destruct Hall as [Hall Hsc].
    rewrite foldl_snoc, keys_after_lookup
      by (rewrite ?foldl_keys_after_length; (done || lia)).
    unfold currently_pressed. rewrite filter_app.
    destruct (decide (k = key_index event)) as [->|Hne].
    + rewrite decide_True by (split; [done|lia]).
      rewrite filter_cons_True, filter_nil, last_snoc by done.
      split; [by intros [= ->]|by intros ->].
    + rewrite decide_False by tauto.
      rewrite filter_cons_False, filter_nil, app_nil_r by done.
      by apply IH.
Qed.
End runs.

(** ** Events that leave no trace *)

Section discarded.
Implicit Types (kb : hid_keyboard) (hev : hid_event)
  (event : SDL_KeyboardEvent) (e : env).

Lemma hid_keyboard_convert_event_negative kb hev event e :
  scancode (keysym event) < 0 →
  hid_keyboard_convert_event kb hev event e = None.
Proof.
  intros Hneg. unfold hid_keyboard_convert_event.
  by rewrite (proj2 (Z.leb_gt _ _)) by done.
Qed.

Lemma process_key_negative kb event e :
  repeat event = 0 → scancode (keysym event) < 0 →
  sc_key_processor_process_key kb event e = None.
Proof.
  intros Hrep Hneg. unfold sc_key_processor_process_key.
  rewrite Hrep. cbn [Z.eqb negb].
  by rewrite hid_keyboard_convert_event_negative.
Qed.

(** Whatever the event, a call that finds [malloc] failing changes
    nothing. *)
Lemma process_key_null_only kb event e kb' :
  malloc_result e = None →
  sc_key_processor_process_key kb event e = Some kb' → kb' = kb.
Proof.
  intros He Hrun.
  destruct (decide (repeat event = 0)) as [Hrep|Hrep].
  - destruct (decide (0 ≤ scancode (keysym event))) as [Hsc|Hneg].
    + rewrite process_key_null in Hrun by done. congruence.
    + rewrite process_key_negative in Hrun by (done || lia). done.
  - rewrite process_key_repeat in Hrun by done. congruence.
Qed.

Lemma process_key_unsupported_only kb event e kb' :
  ¬ supported (scancode (keysym event)) →
  sc_key_processor_process_key kb event e = Some kb' → kb' = kb.
Proof.
  intros Hun Hrun.
  destruct (decide (repeat event = 0)) as [Hrep|Hrep].
  - destruct (decide (0 ≤ scancode (keysym event))) as [Hsc|Hneg].
    + rewrite process_key_unsupported in Hrun by done. congruence.
    + rewrite process_key_negative in Hrun by (done || lia). done.
  - rewrite process_key_repeat in Hrun by done. congruence.
Qed.
End discarded.

(** ** Repeats, unsupported keys, failed allocations *)

(** C6. An event whose repeat flag is set makes the entry point return at
    once: the keyboard comes back as it was, so no entry of the table has
    changed and the transport has received no request. *)
Theorem repeat_event_is_ignored (kb : hid_keyboard)
    (event : SDL_KeyboardEvent) (e : env) :
  repeat event ≠ 0 →
  sc_key_processor_process_key kb event e = Some kb.
Proof. apply process_key_repeat. Qed.

Lemma repeat_event_is_ignored_witness :
  repeat {| type := SDL_KEYDOWN; repeat := 1;
            keysym := {| scancode := SDL_SCANCODE_A; mod_ := 0 |} |} ≠ 0
  ∧ sc_key_processor_process_key (kb_reset [])
      {| type := SDL_KEYDOWN; repeat := 1;
         keysym := {| scancode := SDL_SCANCODE_A; mod_ := 0 |} |} env_sample
    = Some (kb_reset []).
Proof.
  split; [discriminate|].
  apply (repeat_event_is_ignored (kb_reset [])
           {| type := SDL_KEYDOWN; repeat := 1;
              keysym := {| scancode := SDL_SCANCODE_A; mod_ := 0 |} |}
           env_sample).
  discriminate.
Defined.

(** C7. A key code that is neither below [HID_KEYBOARD_KEYS] nor one of the
    eight modifier codes 224..231: [hid_keyboard_convert_event] answers
    false with the keyboard untouched, and the entry point returns the
    keyboard as it was, table and transport requests alike.  A negative code
    trips the assertion, so the only result there can be is the unchanged
    keyboard too. *)
Theorem unsupported_key_is_discarded (kb : hid_keyboard)
    (event : SDL_KeyboardEvent) (e : env) :
  ¬ (0 ≤ scancode (keysym event) < Z.of_nat HID_KEYBOARD_KEYS) →
  ¬ (SDL_SCANCODE_LCTRL ≤ scancode (keysym event) ≤ SDL_SCANCODE_RGUI) →
  (∀ kb', sc_key_processor_process_key kb event e = Some kb' → kb' = kb)
  ∧ (0 ≤ scancode (keysym event) →
     sc_key_processor_process_key kb event e = Some kb
     ∧ ∀ hev, ∃ hev',
         hid_keyboard_convert_event kb hev event e = Some (false, kb, hev')).
Proof.
  intros Hrange Hmod.
  assert (¬ supported (scancode (keysym event))) as Hun
    by (unfold supported; tauto).
  split; [|intros Hsc; split].
  - intros kb'. by apply process_key_unsupported_only.
  - destruct (decide (repeat event = 0)).
    + by apply process_key_unsupported.
    + by apply process_key_repeat.
  - intros hev. eexists. by apply hid_keyboard_convert_event_unsupported.
Qed.

Lemma unsupported_key_is_discarded_witness :
  sc_key_processor_process_key (kb_reset []) (key_event SDL_KEYDOWN 150 0)
    env_sample
  = Some (kb_reset []).
Proof.
  refine
    (proj1 (proj2 (unsupported_key_is_discarded (kb_reset [])
                     (key_event SDL_KEYDOWN 150 0) env_sample _ _) _)).
  - unfold HID_KEYBOARD_KEYS. cbn [key_event keysym scancode]. lia.
  - unfold SDL_SCANCODE_LCTRL. cbn [key_event keysym scancode]. lia.
  - cbn [key_event keysym scancode]. lia.
Defined.

(** C10. When [malloc] fails, [convert_hid_keyboard_event] answers false
    before it reaches the table, which it hands back as it was; the entry
    point then returns the keyboard unchanged, so no request has reached the
    transport. *)
Theorem failed_allocation_changes_nothing (kb : hid_keyboard)
    (hev : hid_event) (event : SDL_KeyboardEvent) (e : env) :
  malloc_result e = None →
  convert_hid_keyboard_event kb hev event e
  = Some (false, kb,
          {| from_accessory_id := from_accessory_id hev; buffer := None;
             size := size hev |})
  ∧ (∀ kb', sc_key_processor_process_key kb event e = Some kb' → kb' = kb)
  ∧ (0 ≤ scancode (keysym event) →
     sc_key_processor_process_key kb event e = Some kb).
Proof.
  intros He. split_and!.
  - by apply convert_hid_keyboard_event_null.
  - intros kb'. by apply process_key_null_only.
  - intros Hsc. by apply process_key_null.
Qed.

Lemma failed_allocation_changes_nothing_witness :
  malloc_result env_null = None
  ∧ sc_key_processor_process_key (kb_reset []) press_a env_null
    = Some (kb_reset []).
Proof.
  split; [reflexivity|].
  refine
    (proj2 (proj2 (failed_allocation_changes_nothing (kb_reset [])
                     stack_garbage press_a env_null _)) _).
  - reflexivity.
  - unfold press_a, SDL_SCANCODE_A. cbn [key_event keysym scancode]. lia.
Defined.

(** ** The descriptor and its registration *)

Lemma ARRAY_LEN_keyboard_report_desc : ARRAY_LEN keyboard_report_desc = 63.
Proof. reflexivity. Qed.

(** C9. The report descriptor is a closed sequence of 63 bytes, and every
    call of [hid_keyboard_init], whatever the keyboard, the transport and
    its answer, hands that same sequence with length 63 to the registration
    request. *)
Theorem report_descriptor_is_constant :
  length keyboard_report_desc = 63%nat
  ∧ keyboard_report_desc
    = [0x05; 0x01; 0x09; 0x06; 0xA1; 0x01; 0x05; 0x07; 0x19; 0xE0; 0x29; 0xE7;
       0x15; 0x00; 0x25; 0x01; 0x75; 0x01; 0x95; 0x08; 0x81; 0x02; 0x75; 0x08;
       0x95; 0x01; 0x81; 0x01; 0x05; 0x08; 0x19; 0x01; 0x29; 0x05; 0x75; 0x01;
       0x95; 0x05; 0x91; 0x02; 0x75; 0x03; 0x95; 0x01; 0x91; 0x01; 0x05; 0x07;
       0x19; 0x00; 0x29; 0x65; 0x15; 0x00; 0x25; 0x65; 0x75; 0x08; 0x95; 0x06;
       0x81; 0x00; 0xC0]
  ∧ ∀ (kb : hid_keyboard) (a : aoa_t) (answer : bool),
      length (keys kb) = HID_KEYBOARD_KEYS →
      ∃ kb',
        hid_keyboard_init kb a answer = Some (answer, kb')
        ∧ aoa kb'
          = a ++ [setup_hid HID_KEYBOARD_ACCESSORY_ID keyboard_report_desc 63].
Proof.
  split_and!; [reflexivity..|].
  intros kb a answer Hlen. unfold hid_keyboard_init, aoa_setup_hid.
  rewrite ARRAY_LEN_keyboard_report_desc. destruct answer; cbn [negb].
  - unfold memset. rewrite decide_True by (rewrite Hlen; lia).
    rewrite bind_ret. by eexists.
  - by eexists.
Qed.

Lemma report_descriptor_is_constant_witness :
  ∃ kb',
    hid_keyboard_init
      {| key_processor := false; aoa := []; keys := replicate 102 true |}
      [] true
    = Some (true, kb')
    ∧ aoa kb'
      = [] ++ [setup_hid HID_KEYBOARD_ACCESSORY_ID keyboard_report_desc 63].
Proof.
  apply (proj2 (proj2 report_descriptor_is_constant)
           {| key_processor := false; aoa := []; keys := replicate 102 true |}
           [] true).
  reflexivity.
Defined.

(** ** The scenario of the specification *)

(** C4. From the all-false table: pressing A sends modifier byte 0x00 and
    slots [A,0,0,0,0,0]; pressing Left-Shift then sends modifier byte 0x02
    with A still in the first slot; releasing A then sends modifier byte
    0x02 and six zero slots.  The three reports are the requests the
    transport receives, in this order, whatever [malloc] leaves in its
    blocks, whatever the stack holds and whatever the transport answers. *)
Theorem scenario_a_then_shift_then_release
    (content1 content2 content3 : nat → Z)
    (garbage1 garbage2 garbage3 : hid_event) (answer1 answer2 answer3 : bool) :
  process_keys (kb_reset [])
    [(press_a, env_ok content1 garbage1 answer1);
     (press_lshift, env_ok content2 garbage2 answer2);
     (release_a, env_ok content3 garbage3 answer3)]
  = Some
      {| key_processor := true;
         aoa :=
           [push_hid_event
              {| from_accessory_id := HID_KEYBOARD_ACCESSORY_ID;
                 buffer := Some [0x00; 0; SDL_SCANCODE_A; 0; 0; 0; 0; 0];
                 size := 8 |};
            push_hid_event
              {| from_accessory_id := HID_KEYBOARD_ACCESSORY_ID;
                 buffer := Some [0x02; 0; SDL_SCANCODE_A; 0; 0; 0; 0; 0];
                 size := 8 |};
            push_hid_event
              {| from_accessory_id := HID_KEYBOARD_ACCESSORY_ID;
                 buffer := Some [0x02; 0; 0; 0; 0; 0; 0; 0];
                 size := 8 |}];
         keys := replicate HID_KEYBOARD_KEYS false |}.
Proof. vm_compute. reflexivity. Qed.

(** ** Shape of a report *)

Lemma slots_distinct (event : SDL_KeyboardEvent) (keys : list bool) :
  length keys = HID_KEYBOARD_KEYS →
  (length (pressed_codes keys) ≤ HID_KEYBOARD_MAX_KEYS)%nat →
  ∀ (i j : nat) (c : Z),
    key_slots (report_of event keys) !! i = Some c →
    key_slots (report_of event keys) !! j = Some c →
    c ≠ 0 → i = j.
Proof.
  intros Hlen Hfit i j c Hi Hj Hc. rewrite key_slots_fit in Hi, Hj by done.
  apply lookup_app_Some in Hi as [Hi|[_ Hi]];
    [|apply lookup_replicate in Hi as [? _]; done].
  apply lookup_app_Some in Hj as [Hj|[_ Hj]];
    [|apply lookup_replicate in Hj as [? _]; done].
  eapply NoDup_lookup; [|exact Hi|exact Hj].
  apply (NoDup_fmap_2 _), pressed_in_NoDup.
Qed.

Lemma sentinel_in_slots (event : SDL_KeyboardEvent) (keys : list bool) :
  length keys = HID_KEYBOARD_KEYS →
  (length (pressed_codes keys) ≤ HID_KEYBOARD_MAX_KEYS)%nat →
  HID_KEYBOARD_ERROR_ROLL_OVER ∈ key_slots (report_of event keys)
  ↔ keys !! 1%nat = Some true.
Proof.
  intros Hlen Hfit. rewrite key_slots_fit by done.
  rewrite elem_of_app, elem_of_replicate, list_elem_of_fmap.
  rewrite <-elem_of_pressed_codes. unfold HID_KEYBOARD_ERROR_ROLL_OVER.
  split.
  - intros [(k & Hk & Hin)|[? _]]; [|done].
    by replace 1%nat with k by lia.
  - intros Hin. left. by exists 1%nat.
Qed.

(** C8. The buffer [create_hid_keyboard_event] returns and the buffer
    [convert_hid_keyboard_event] fills have [2 + HID_KEYBOARD_MAX_KEYS] = 8
    bytes, the announced size is 8, byte 1 is zero, and when the report is
    not the roll-over one (at most six entries of the table are true) two
    different slots never hold the same nonzero key code. *)
Theorem report_shape_and_distinct_slots :
  (∀ content : nat → Z,
     ∃ fresh,
       create_hid_keyboard_event (Some content) = Some (Some fresh)
       ∧ length fresh = (2 + HID_KEYBOARD_MAX_KEYS)%nat
       ∧ fresh !! 1%nat = Some 0)
  ∧ ∀ (kb : hid_keyboard) (hev : hid_event) (event : SDL_KeyboardEvent)
      (e : env) (content : nat → Z),
      length (keys kb) = HID_KEYBOARD_KEYS →
      malloc_result e = Some content →
      0 ≤ scancode (keysym event) →
      ∃ kb' report,
        convert_hid_keyboard_event kb hev event e
        = Some (true, kb',
                {| from_accessory_id := from_accessory_id hev;
                   buffer := Some report; size := 8 |})
        ∧ length report = (2 + HID_KEYBOARD_MAX_KEYS)%nat
        ∧ length report = 8%nat
        ∧ report !! 1%nat = Some 0
        ∧ ((length (pressed_codes (keys kb')) ≤ HID_KEYBOARD_MAX_KEYS)%nat →
           ∀ (i j : nat) (c : Z),
             key_slots report !! i = Some c →
             key_slots report !! j = Some c →
             c ≠ 0 → i = j).
Proof.
  split.
  - intros content. eexists.
    split; [apply create_hid_keyboard_event_ok|by split].
  - intros kb hev event e content Hlen He Hsc.
    eexists _, _. split; [by eapply convert_hid_keyboard_event_ok|].
    cbn [keys]. split_and!.
    + apply length_report_of.
    + apply length_report_of.
    + reflexivity.
    + intros Hfit. apply slots_distinct; [|done].
      by rewrite keys_after_length.
Qed.

Lemma report_shape_and_distinct_slots_witness :
  (∃ kb' report,
     convert_hid_keyboard_event (kb_with keys_three) stack_garbage press_a
       env_sample
     = Some (true, kb',
             {| from_accessory_id := from_accessory_id stack_garbage;
                buffer := Some report; size := 8 |})
     ∧ length report = (2 + HID_KEYBOARD_MAX_KEYS)%nat
     ∧ length report = 8%nat
     ∧ report !! 1%nat = Some 0
     ∧ ((length (pressed_codes (keys kb')) ≤ HID_KEYBOARD_MAX_KEYS)%nat →
        ∀ (i j : nat) (c : Z),
          key_slots report !! i = Some c →
          key_slots report !! j = Some c →
          c ≠ 0 → i = j))
  ∧ (∃ kb' report,
       convert_hid_keyboard_event (kb_with keys_six) stack_garbage
         (key_event SDL_KEYUP 20 KMOD_RCTRL) env_sample
       = Some (true, kb',
               {| from_accessory_id := from_accessory_id stack_garbage;
                  buffer := Some report; size := 8 |})
       ∧ length report = (2 + HID_KEYBOARD_MAX_KEYS)%nat
       ∧ length report = 8%nat
       ∧ report !! 1%nat = Some 0
       ∧ ((length (pressed_codes (keys kb')) ≤ HID_KEYBOARD_MAX_KEYS)%nat →
          ∀ (i j : nat) (c : Z),
            key_slots report !! i = Some c →
            key_slots report !! j = Some c →
            c ≠ 0 → i = j))
  ∧ convert_hid_keyboard_event (kb_with keys_three) stack_garbage press_a
      env_sample
    = Some (true, kb_with (<[4%nat:=true]> keys_three),
            {| from_accessory_id := from_accessory_id stack_garbage;
               buffer := Some [0; 0; 4; 7; 8; 9; 0; 0]; size := 8 |})
  ∧ convert_hid_keyboard_event (kb_with keys_six) stack_garbage
      (key_event SDL_KEYUP 20 KMOD_RCTRL) env_sample
    = Some (true, kb_with keys_six,
            {| from_accessory_id := from_accessory_id stack_garbage;
               buffer := Some [0x10; 0; 4; 5; 6; 7; 8; 9]; size := 8 |}).
Proof.
  split; [|split; [|split]].
  - apply (proj2 report_shape_and_distinct_slots (kb_with keys_three)
             stack_garbage press_a env_sample (λ _, 0xAA)).
    + reflexivity.
    + reflexivity.
    + sample_code.
  - apply (proj2 report_shape_and_distinct_slots (kb_with keys_six)
             stack_garbage (key_event SDL_KEYUP 20 KMOD_RCTRL) env_sample
             (λ _, 0xAA)).
    + reflexivity.
    + reflexivity.
    + sample_code.
  - vm_compute. reflexivity.
  - vm_compute. reflexivity.
Defined.

(** ** Roll-over *)

(** C2, as the code has it.  The table scanned is the one before the call
    with the entry of the event's key set to "is a key-down".  With more than
    six entries true the six slots all hold [HID_KEYBOARD_ERROR_ROLL_OVER];
    byte 0 is the mask computed from the modifier flags of the event and
    byte 1 is zero in every report.  With six entries or fewer the slots hold
    the pressed codes themselves, ascending and followed by zeros, so the
    value of the sentinel, 0x01, is in a slot exactly when entry 1 of the
    table is true. *)
Theorem rollover_report (kb : hid_keyboard) (hev : hid_event)
    (event : SDL_KeyboardEvent) (e : env) (content : nat → Z) :
  length (keys kb) = HID_KEYBOARD_KEYS →
  malloc_result e = Some content →
  0 ≤ scancode (keysym event) →
  ∃ kb' report,
    convert_hid_keyboard_event kb hev event e
    = Some (true, kb',
            {| from_accessory_id := from_accessory_id hev;
               buffer := Some report; size := 8 |})
    ∧ (∀ k, keys kb' !! k
            = if decide (k = key_index event
                         ∧ scancode (keysym event)
                           < Z.of_nat HID_KEYBOARD_KEYS)
              then Some (type event =? SDL_KEYDOWN)
              else keys kb !! k)
    ∧ NoDup (pressed_codes (keys kb'))
    ∧ (∀ k, k ∈ pressed_codes (keys kb') ↔ keys kb' !! k = Some true)
    ∧ report !! 0%nat
      = Some (sdl_keymod_to_hid_modifiers (mod_ (keysym event)))
    ∧ report !! 1%nat = Some 0
    ∧ ((HID_KEYBOARD_MAX_KEYS < length (pressed_codes (keys kb')))%nat →
       key_slots report
       = replicate HID_KEYBOARD_MAX_KEYS HID_KEYBOARD_ERROR_ROLL_OVER)
    ∧ ((length (pressed_codes (keys kb')) ≤ HID_KEYBOARD_MAX_KEYS)%nat →
       key_slots report
       = (Z.of_nat <$> pressed_codes (keys kb'))
           ++ replicate
                (HID_KEYBOARD_MAX_KEYS - length (pressed_codes (keys kb')))
                0
       ∧ StronglySorted lt (pressed_codes (keys kb'))
       ∧ (HID_KEYBOARD_ERROR_ROLL_OVER ∈ key_slots report
          ↔ keys kb' !! 1%nat = Some true)).
Proof.
  intros Hlen He Hsc.
  eexists _, _. split; [by eapply convert_hid_keyboard_event_ok|].
  cbn [keys].
  assert (length (keys_after (keys kb) event) = HID_KEYBOARD_KEYS) as Hlen'
    by (by rewrite keys_after_length).
  split_and!.
  - intros k. by apply keys_after_lookup.
  - apply pressed_in_NoDup.
  - intros k. apply elem_of_pressed_codes.
  - reflexivity.
  - reflexivity.
  - intros Hover. by rewrite key_slots_report_of, slots_after_overflow.
  - intros Hfit. split_and!.
    + by apply key_slots_fit.
    + apply pressed_codes_sorted.
    + by apply sentinel_in_slots.
Qed.

Lemma rollover_report_witness :
  (∃ kb' report,
     convert_hid_keyboard_event (kb_with keys_seven) stack_garbage
       press_lshift env_sample
     = Some (true, kb',
             {| from_accessory_id := from_accessory_id stack_garbage;
                buffer := Some report; size := 8 |})
     ∧ (∀ k, keys kb' !! k
             = if decide (k = key_index press_lshift
                          ∧ scancode (keysym press_lshift)
                            < Z.of_nat HID_KEYBOARD_KEYS)
               then Some (type press_lshift =? SDL_KEYDOWN)
               else keys (kb_with keys_seven) !! k)
     ∧ NoDup (pressed_codes (keys kb'))
     ∧ (∀ k, k ∈ pressed_codes (keys kb') ↔ keys kb' !! k = Some true)
     ∧ report !! 0%nat
       = Some (sdl_keymod_to_hid_modifiers (mod_ (keysym press_lshift)))
     ∧ report !! 1%nat = Some 0
     ∧ ((HID_KEYBOARD_MAX_KEYS < length (pressed_codes (keys kb')))%nat →
        key_slots report
        = replicate HID_KEYBOARD_MAX_KEYS HID_KEYBOARD_ERROR_ROLL_OVER)
     ∧ ((length (pressed_codes (keys kb')) ≤ HID_KEYBOARD_MAX_KEYS)%nat →
        key_slots report
        = (Z.of_nat <$> pressed_codes (keys kb'))
            ++ replicate
                 (HID_KEYBOARD_MAX_KEYS - length (pressed_codes (keys kb')))
                 0
        ∧ StronglySorted lt (pressed_codes (keys kb'))
        ∧ (HID_KEYBOARD_ERROR_ROLL_OVER ∈ key_slots report
           ↔ keys kb' !! 1%nat = Some true)))
  ∧ (∃ kb' report,
       convert_hid_keyboard_event (kb_with keys_one_five) stack_garbage
         press_a env_sample
       = Some (true, kb',
               {| from_accessory_id := from_accessory_id stack_garbage;
                  buffer := Some report; size := 8 |})
       ∧ (∀ k, keys kb' !! k
               = if decide (k = key_index press_a
                            ∧ scancode (keysym press_a)
                              < Z.of_nat HID_KEYBOARD_KEYS)
                 then Some (type press_a =? SDL_KEYDOWN)
                 else keys (kb_with keys_one_five) !! k)
       ∧ NoDup (pressed_codes (keys kb'))
       ∧ (∀ k, k ∈ pressed_codes (keys kb') ↔ keys kb' !! k = Some true)
       ∧ report !! 0%nat
         = Some (sdl_keymod_to_hid_modifiers (mod_ (keysym press_a)))
       ∧ report !! 1%nat = Some 0
       ∧ ((HID_KEYBOARD_MAX_KEYS < length (pressed_codes (keys kb')))%nat →
          key_slots report
          = replicate HID_KEYBOARD_MAX_KEYS HID_KEYBOARD_ERROR_ROLL_OVER)
       ∧ ((length (pressed_codes (keys kb')) ≤ HID_KEYBOARD_MAX_KEYS)%nat →
          key_slots report
          = (Z.of_nat <$> pressed_codes (keys kb'))
              ++ replicate
                   (HID_KEYBOARD_MAX_KEYS
                    - length (pressed_codes (keys kb')))
                   0
          ∧ StronglySorted lt (pressed_codes (keys kb'))
          ∧ (HID_KEYBOARD_ERROR_ROLL_OVER ∈ key_slots report
             ↔ keys kb' !! 1%nat = Some true)))
  ∧ convert_hid_keyboard_event (kb_with keys_seven) stack_garbage
      press_lshift env_sample
    = Some (true, kb_with keys_seven,
            {| from_accessory_id := from_accessory_id stack_garbage;
               buffer := Some [0x02; 0; 1; 1; 1; 1; 1; 1]; size := 8 |})
  ∧ length (pressed_codes keys_seven) = 7%nat
  ∧ convert_hid_keyboard_event (kb_with keys_one_five) stack_garbage press_a
      env_sample
    = Some (true, kb_with (<[4%nat:=true]> keys_one_five),
            {| from_accessory_id := from_accessory_id stack_garbage;
               buffer := Some [0; 0; 1; 4; 5; 0; 0; 0]; size := 8 |})
  ∧ length (pressed_codes (<[4%nat:=true]> keys_one_five)) = 3%nat.
Proof.
  split; [|split; [|split; [|split; [|split]]]].
  - apply (rollover_report (kb_with keys_seven) stack_garbage press_lshift
             env_sample (λ _, 0xAA)).
    + reflexivity.
    + reflexivity.
    + sample_code.
  - apply (rollover_report (kb_with keys_one_five) stack_garbage press_a
             env_sample (λ _, 0xAA)).
    + reflexivity.
    + reflexivity.
    + sample_code.
  - vm_compute. reflexivity.
  - vm_compute. reflexivity.
  - vm_compute. reflexivity.
  - vm_compute. reflexivity.
Defined.

(** C2 as stated fails: from the all-false table a press of key code 1
    leaves one entry true, and slot 0 of the report holds 0x01, the value of
    the sentinel. *)
Lemma sentinel_without_rollover :
  convert_hid_keyboard_event (kb_reset []) stack_garbage
    (key_event SDL_KEYDOWN 1 0) env_sample
  = Some (true,
          {| key_processor := true; aoa := [];
             keys := <[1%nat:=true]> (replicate HID_KEYBOARD_KEYS false) |},
          {| from_accessory_id := from_accessory_id stack_garbage;
             buffer := Some [0; 0; 1; 0; 0; 0; 0; 0]; size := 8 |})
  ∧ pressed_codes (<[1%nat:=true]> (replicate HID_KEYBOARD_KEYS false))
    = [1%nat]
  ∧ (length [1%nat] ≤ HID_KEYBOARD_MAX_KEYS)%nat
  ∧ key_slots [0; 0; 1; 0; 0; 0; 0; 0] !! 0%nat
    = Some HID_KEYBOARD_ERROR_ROLL_OVER.
Proof.
  split_and!; [vm_compute; reflexivity..| |reflexivity].
  unfold HID_KEYBOARD_MAX_KEYS. cbn [length]. lia.
Qed.

(** A seventh key brings the roll-over report, with the modifier byte of
    the event. *)
Example seven_keys_roll_over :
  last_report
    <$> (aoa <$> process_keys (kb_reset [])
                   ((λ sc, (key_event SDL_KEYDOWN sc KMOD_RCTRL, env_sample))
                      <$> [4; 5; 6; 7; 8; 9; 10]))
  = Some (Some [0x10; 0; 1; 1; 1; 1; 1; 1]).
Proof. vm_compute. reflexivity. Qed.

(** ** The slots and the set of pressed keys *)

Section order.
  Implicit Types (kb : hid_keyboard)
    (steps : list (SDL_KeyboardEvent * env)).

Lemma press_steps_events steps :
  Forall press_step steps →
  Forall key_step steps
  ∧ Forall (λ event, type event = SDL_KEYDOWN
                     ∧ 0 ≤ scancode (keysym event)
                           < Z.of_nat HID_KEYBOARD_KEYS) steps.*1.
Proof.
  intros Hall. split.
  - eapply Forall_impl; [exact Hall|]. by intros s [Hkey _].
  - apply Forall_fmap. eapply Forall_impl; [exact Hall|].
    by intros s [(_ & Hsc & _) Hty].
Qed.

Lemma last_report_push (a : aoa_t) (ev : hid_event) :
  last a = Some (push_hid_event ev) → last_report a = buffer ev.
Proof. intros Hlast. unfold last_report. by rewrite Hlast. Qed.

Lemma key_steps_events steps :
  Forall key_step steps →
  Forall (λ event, 0 ≤ scancode (keysym event)
                       < Z.of_nat HID_KEYBOARD_KEYS) steps.*1.
Proof.
  intros Hall. apply Forall_fmap. eapply Forall_impl; [exact Hall|].
  by intros s (_ & Hsc & _).
Qed.

(** Two runs of presses of the same keys, in any order: same table, with
    the pressed keys set and the others as before, and same slots in the
    report sent last. *)
Lemma press_order_irrelevant kb steps1 steps2 :
  length (keys kb) = HID_KEYBOARD_KEYS →
  Forall press_step steps1 →
  steps1 ≡ₚ steps2 →
  ∃ kb1 kb2,
    process_keys kb steps1 = Some kb1
    ∧ process_keys kb steps2 = Some kb2
    ∧ keys kb1 = keys kb2
    ∧ (∀ k, keys kb1 !! k
            = if decide (k ∈ key_index <$> steps1.*1) then Some true
              else keys kb !! k)
    ∧ key_slots <$> last_report (aoa kb1)
      = key_slots <$> last_report (aoa kb2).
Proof.
  intros Hlen Hall1 Hperm.
  assert (Forall press_step steps2) as Hall2 by (by rewrite <-Hperm).
  apply press_steps_events in Hall1 as [Hkey1 Hev1].
  apply press_steps_events in Hall2 as [Hkey2 Hev2].
  destruct (process_keys_key_steps steps1 kb Hlen Hkey1)
    as (kb1 & Hrun1 & Hkeys1 & Hlast1).
  destruct (process_keys_key_steps steps2 kb Hlen Hkey2)
    as (kb2 & Hrun2 & Hkeys2 & Hlast2).
  assert (keys kb1 = keys kb2) as Heq.
  { rewrite Hkeys1, Hkeys2.
    apply press_order_keys; [done..|by apply fmap_Permutation]. }
  exists kb1, kb2. split_and!; [done..| |].
  { intros k. rewrite Hkeys1. by apply foldl_keys_after_press. }
  destruct (last steps1) as [s1|] eqn:Hs1.
  - destruct (last steps2) as [s2|] eqn:Hs2.
    + rewrite (last_report_push _ _ (Hlast1 s1 eq_refl)),
        (last_report_push _ _ (Hlast2 s2 eq_refl)).
      cbn [envelope_of buffer fmap option_fmap option_map].
      by rewrite !key_slots_report_of, Heq.
    + apply last_None in Hs2 as ->.
      apply Permutation_nil_r in Hperm as ->. done.
  - apply last_None in Hs1 as ->.
    apply Permutation_nil_l in Hperm as <-.
    cbn [process_keys] in Hrun1, Hrun2. congruence.
Qed.
End order.

(** C1. (i) One call of [convert_hid_keyboard_event] on any table: the
    table afterwards is the one before with the entry of the event's key set
    to "is a key-down" (line 188), and if at most six entries are then true,
    slots 2..7 of the report are the key codes whose entry is true, in
    ascending order, followed by zeros.  (ii) For any run of press and
    release events on keys of the table, the entries that are true at the end
    are those of the keys currently pressed (last event on the key a press,
    or no event on it and pressed before), and the report sent last lists
    them in the same way.  (iii) Presses of the same keys in another order
    leave the same table, with exactly those keys added, and the same
    slots. *)
Theorem key_slots_are_pressed_codes_ascending :
  (∀ (kb : hid_keyboard) (hev : hid_event) (event : SDL_KeyboardEvent)
     (e : env) (content : nat → Z),
     length (keys kb) = HID_KEYBOARD_KEYS →
     malloc_result e = Some content →
     0 ≤ scancode (keysym event) →
     ∃ kb' report,
       convert_hid_keyboard_event kb hev event e
       = Some (true, kb',
               {| from_accessory_id := from_accessory_id hev;
                  buffer := Some report; size := 8 |})
       ∧ (∀ k, keys kb' !! k
               = if decide (k = key_index event
                            ∧ scancode (keysym event)
                              < Z.of_nat HID_KEYBOARD_KEYS)
                 then Some (type event =? SDL_KEYDOWN)
                 else keys kb !! k)
       ∧ StronglySorted lt (pressed_codes (keys kb'))
       ∧ (∀ k, k ∈ pressed_codes (keys kb') ↔ keys kb' !! k = Some true)
       ∧ ((length (pressed_codes (keys kb')) ≤ HID_KEYBOARD_MAX_KEYS)%nat →
          key_slots report
          = (Z.of_nat <$> pressed_codes (keys kb'))
              ++ replicate
                   (HID_KEYBOARD_MAX_KEYS - length (pressed_codes (keys kb')))
                   0))
  ∧ (∀ (kb : hid_keyboard) (steps : list (SDL_KeyboardEvent * env)),
       length (keys kb) = HID_KEYBOARD_KEYS →
       steps ≠ [] →
       Forall key_step steps →
       ∃ kb' report,
         process_keys kb steps = Some kb'
         ∧ last_report (aoa kb') = Some report
         ∧ (∀ k, keys kb' !! k = Some true
                 ↔ currently_pressed (keys kb) steps.*1 k = true)
         ∧ StronglySorted lt (pressed_codes (keys kb'))
         ∧ (∀ k, k ∈ pressed_codes (keys kb')
                 ↔ currently_pressed (keys kb) steps.*1 k = true)
         ∧ ((length (pressed_codes (keys kb')) ≤ HID_KEYBOARD_MAX_KEYS)%nat →
            key_slots report
            = (Z.of_nat <$> pressed_codes (keys kb'))
                ++ replicate
                     (HID_KEYBOARD_MAX_KEYS
                      - length (pressed_codes (keys kb')))
                     0))
  ∧ (∀ (kb : hid_keyboard) (steps1 steps2 : list (SDL_KeyboardEvent * env)),
       length (keys kb) = HID_KEYBOARD_KEYS →
       Forall press_step steps1 →
       steps1 ≡ₚ steps2 →
       ∃ kb1 kb2,
         process_keys kb steps1 = Some kb1
         ∧ process_keys kb steps2 = Some kb2
         ∧ keys kb1 = keys kb2
         ∧ (∀ k, keys kb1 !! k
                 = if decide (k ∈ key_index <$> steps1.*1) then Some true
                   else keys kb !! k)
         ∧ key_slots <$> last_report (aoa kb1)
           = key_slots <$> last_report (aoa kb2)).
Proof.
  split_and!.
  - intros kb hev event e content Hlen He Hsc.
    eexists _, _. split; [by eapply convert_hid_keyboard_event_ok|].
    cbn [keys]. split_and!.
    + intros k. by apply keys_after_lookup.
    + apply pressed_codes_sorted.
    + intros k. apply elem_of_pressed_codes.
    + intros Hfit. apply key_slots_fit; [|done].
      by rewrite keys_after_length.
  - intros kb steps Hlen Hne Hall.
    destruct (process_keys_key_steps steps kb Hlen Hall)
      as (kb' & Hrun & Hkeys & Hlast).
    destruct (last steps) as [s|] eqn:Hs; [|by apply last_None in Hs].
    assert (∀ k, keys kb' !! k = Some true
                 ↔ currently_pressed (keys kb) steps.*1 k = true) as Hcur.
    { intros k. rewrite Hkeys.
      apply foldl_keys_after_currently_pressed; [done|].
      by apply key_steps_events. }
    exists kb', (report_of s.1 (keys kb')). split_and!.
    + done.
    + by rewrite (last_report_push _ _ (Hlast s eq_refl)).
    + exact Hcur.
    + apply pressed_codes_sorted.
    + intros k. by rewrite elem_of_pressed_codes.
    + intros Hfit. apply key_slots_fit; [|done].
      by rewrite Hkeys, foldl_keys_after_length.
  - apply press_order_irrelevant.
Qed.

Lemma key_slots_are_pressed_codes_ascending_witness :
  (∃ kb' report,
     convert_hid_keyboard_event (kb_with keys_three) stack_garbage press_a
       env_sample
     = Some (true, kb',
             {| from_accessory_id := from_accessory_id stack_garbage;
                buffer := Some report; size := 8 |})
     ∧ (∀ k, keys kb' !! k
             = if decide (k = key_index press_a
                          ∧ scancode (keysym press_a)
                            < Z.of_nat HID_KEYBOARD_KEYS)
               then Some (type press_a =? SDL_KEYDOWN)
               else keys (kb_with keys_three) !! k)
     ∧ StronglySorted lt (pressed_codes (keys kb'))
     ∧ (∀ k, k ∈ pressed_codes (keys kb') ↔ keys kb' !! k = Some true)
     ∧ ((length (pressed_codes (keys kb')) ≤ HID_KEYBOARD_MAX_KEYS)%nat →
        key_slots report
        = (Z.of_nat <$> pressed_codes (keys kb'))
            ++ replicate
                 (HID_KEYBOARD_MAX_KEYS - length (pressed_codes (keys kb')))
                 0))
  ∧ (∃ kb' report,
       process_keys (kb_reset [])
         [(key_event SDL_KEYDOWN 9 0, env_sample);
          (key_event SDL_KEYDOWN 5 0, env_sample);
          (key_event SDL_KEYUP 9 0, env_sample);
          (press_a, env_sample)]
       = Some kb'
       ∧ last_report (aoa kb') = Some report
       ∧ (∀ k, keys kb' !! k = Some true
               ↔ currently_pressed (keys (kb_reset []))
                   [(key_event SDL_KEYDOWN 9 0, env_sample);
                    (key_event SDL_KEYDOWN 5 0, env_sample);
                    (key_event SDL_KEYUP 9 0, env_sample);
                    (press_a, env_sample)].*1 k
                 = true)
       ∧ StronglySorted lt (pressed_codes (keys kb'))
       ∧ (∀ k, k ∈ pressed_codes (keys kb')
               ↔ currently_pressed (keys (kb_reset []))
                   [(key_event SDL_KEYDOWN 9 0, env_sample);
                    (key_event SDL_KEYDOWN 5 0, env_sample);
                    (key_event SDL_KEYUP 9 0, env_sample);
                    (press_a, env_sample)].*1 k
                 = true)
       ∧ ((length (pressed_codes (keys kb')) ≤ HID_KEYBOARD_MAX_KEYS)%nat →
          key_slots report
          = (Z.of_nat <$> pressed_codes (keys kb'))
              ++ replicate
                   (HID_KEYBOARD_MAX_KEYS
                    - length (pressed_codes (keys kb')))
                   0))
  ∧ (∃ kb1 kb2,
       process_keys (kb_reset [])
         [(key_event SDL_KEYDOWN 9 0, env_sample);
          (key_event SDL_KEYDOWN 5 0, env_sample); (press_a, env_sample)]
       = Some kb1
       ∧ process_keys (kb_reset [])
           [(press_a, env_sample); (key_event SDL_KEYDOWN 9 0, env_sample);
            (key_event SDL_KEYDOWN 5 0, env_sample)]
         = Some kb2
       ∧ keys kb1 = keys kb2
       ∧ (∀ k, keys kb1 !! k
               = if decide
                      (k ∈ key_index
                             <$> [(key_event SDL_KEYDOWN 9 0, env_sample);
                                  (key_event SDL_KEYDOWN 5 0, env_sample);
                                  (press_a, env_sample)].*1)
                 then Some true
                 else keys (kb_reset []) !! k)
       ∧ key_slots <$> last_report (aoa kb1)
         = key_slots <$> last_report (aoa kb2))
  ∧ convert_hid_keyboard_event (kb_with keys_three) stack_garbage press_a
      env_sample
    = Some (true, kb_with (<[4%nat:=true]> keys_three),
            {| from_accessory_id := from_accessory_id stack_garbage;
               buffer := Some [0; 0; 4; 7; 8; 9; 0; 0]; size := 8 |})
  ∧ last_report
      <$> (aoa <$> process_keys (kb_reset [])
                     [(key_event SDL_KEYDOWN 9 0, env_sample);
                      (key_event SDL_KEYDOWN 5 0, env_sample);
                      (key_event SDL_KEYUP 9 0, env_sample);
                      (press_a, env_sample)])
    = Some (Some [0; 0; 4; 5; 0; 0; 0; 0]).
Proof.
  split; [|split; [|split; [|split]]].
  - apply (proj1 key_slots_are_pressed_codes_ascending (kb_with keys_three)
             stack_garbage press_a env_sample (λ _, 0xAA));
      sample_step.
  - apply (proj1 (proj2 key_slots_are_pressed_codes_ascending) (kb_reset [])
             [(key_event SDL_KEYDOWN 9 0, env_sample);
              (key_event SDL_KEYDOWN 5 0, env_sample);
              (key_event SDL_KEYUP 9 0, env_sample);
              (press_a, env_sample)]).
    + reflexivity.
    + discriminate.
    + repeat constructor; sample_step.
  - apply (proj2 (proj2 key_slots_are_pressed_codes_ascending) (kb_reset [])
             [(key_event SDL_KEYDOWN 9 0, env_sample);
              (key_event SDL_KEYDOWN 5 0, env_sample); (press_a, env_sample)]
             [(press_a, env_sample); (key_event SDL_KEYDOWN 9 0, env_sample);
              (key_event SDL_KEYDOWN 5 0, env_sample)]).
    + reflexivity.
    + repeat constructor; sample_step.
    + symmetry.
      apply (Permutation_cons_append
               [(key_event SDL_KEYDOWN 9 0, env_sample);
                (key_event SDL_KEYDOWN 5 0, env_sample)]
               (press_a, env_sample)).
  - vm_compute. reflexivity.
  - vm_compute. reflexivity.
Defined.

(** ** Modifier keys *)

Section modifiers.
  Implicit Types (kb : hid_keyboard) (event : SDL_KeyboardEvent) (e : env).

Lemma modifier_supported (sc : Z) :
  SDL_SCANCODE_LCTRL ≤ sc ≤ SDL_SCANCODE_RGUI → supported sc.
Proof. by right. Qed.

Lemma modifier_out_of_table (sc : Z) :
  SDL_SCANCODE_LCTRL ≤ sc ≤ SDL_SCANCODE_RGUI →
  Z.of_nat HID_KEYBOARD_KEYS ≤ sc.
Proof. unfold SDL_SCANCODE_LCTRL, HID_KEYBOARD_KEYS. lia. Qed.

Lemma same_keyboard kb :
  {| key_processor := key_processor kb; aoa := aoa kb; keys := keys kb |} = kb.
Proof. by destruct kb. Qed.

Lemma keys_after_twice (keys : list bool) event :
  keys_after (keys_after keys event) event = keys_after keys event.
Proof.
  unfold keys_after. case_match; [|done]. apply list_insert_insert_eq.
Qed.

Lemma keys_after_other (keys : list bool) event (k : nat) :
  k ≠ key_index event → keys_after keys event !! k = keys !! k.
Proof.
  intros Hne. unfold keys_after. case_match; [|done].
  by apply list_lookup_insert_ne.
Qed.

Lemma keys_after_press (keys : list bool) event :
  length keys = HID_KEYBOARD_KEYS →
  type event = SDL_KEYDOWN →
  0 ≤ scancode (keysym event) < Z.of_nat HID_KEYBOARD_KEYS →
  keys_after keys event !! key_index event = Some true.
Proof.
  intros Hlen Hty Hsc. unfold keys_after, key_index.
  rewrite (proj2 (Z.ltb_lt _ _)) by lia. rewrite Hty.
  apply list_lookup_insert_eq. lia.
Qed.
End modifiers.

(** C3, as the code has it.  A non-repeat event on one of the modifier key
    codes 224..231 is let through: [hid_keyboard_convert_event] answers true
    and the entry point sends one report, built from the modifier flags of
    the event and the table as it stands.  The table has no entry for such a
    code and comes back unchanged. *)
Theorem modifier_event_is_reported_not_tracked (kb : hid_keyboard)
    (event : SDL_KeyboardEvent) (e : env) (content : nat → Z) :
  length (keys kb) = HID_KEYBOARD_KEYS →
  malloc_result e = Some content →
  repeat event = 0 →
  SDL_SCANCODE_LCTRL ≤ scancode (keysym event) ≤ SDL_SCANCODE_RGUI →
  (∀ hev, hid_keyboard_convert_event kb hev event e
          = Some (true, kb, envelope_of event (keys kb)))
  ∧ sc_key_processor_process_key kb event e
    = Some {| key_processor := key_processor kb;
              aoa := aoa kb ++ [push_hid_event (envelope_of event (keys kb))];
              keys := keys kb |}
  ∧ report_of event (keys kb) !! 0%nat
    = Some (sdl_keymod_to_hid_modifiers (mod_ (keysym event)))
  ∧ keys kb !! key_index event = None.
Proof.
  intros Hlen He Hrep Hmod.
  pose proof (modifier_supported _ Hmod) as Hsup.
  pose proof (modifier_out_of_table _ Hmod) as Hout.
  split_and!.
  - intros hev.
    rewrite (hid_keyboard_convert_event_supported _ _ _ _ content) by done.
    by rewrite keys_after_out_of_table, same_keyboard.
  - rewrite (process_key_supported _ _ _ content) by done.
    by rewrite keys_after_out_of_table.
  - reflexivity.
  - apply lookup_ge_None. unfold key_index. lia.
Qed.

Lemma modifier_event_is_reported_not_tracked_witness :
  sc_key_processor_process_key (kb_reset []) press_lshift env_sample
  = Some {| key_processor := true;
            aoa := [] ++ [push_hid_event
                            (envelope_of press_lshift
                               (replicate HID_KEYBOARD_KEYS false))];
            keys := replicate HID_KEYBOARD_KEYS false |}.
Proof.
  refine
    (proj1 (proj2 (modifier_event_is_reported_not_tracked (kb_reset [])
                     press_lshift env_sample (λ _, 0xAA) _ _ _ _))).
  - reflexivity.
  - reflexivity.
  - reflexivity.
  - unfold press_lshift, SDL_SCANCODE_LCTRL, SDL_SCANCODE_LSHIFT,
      SDL_SCANCODE_RGUI.
    cbn [key_event keysym scancode]. lia.
Defined.

(** C3 as stated fails: a press of Left-Shift on the all-false table is
    answered with a report, but the table is the all-false table afterwards
    and has no entry at index 225 that could record the press. *)
Lemma modifier_press_not_recorded :
  sc_key_processor_process_key (kb_reset []) press_lshift env_sample
  = Some {| key_processor := true;
            aoa := [push_hid_event
                      {| from_accessory_id := HID_KEYBOARD_ACCESSORY_ID;
                         buffer := Some [0x02; 0; 0; 0; 0; 0; 0; 0];
                         size := 8 |}];
            keys := replicate HID_KEYBOARD_KEYS false |}
  ∧ key_index press_lshift = 225%nat
  ∧ replicate HID_KEYBOARD_KEYS false !! key_index press_lshift
    ≠ Some (type press_lshift =? SDL_KEYDOWN).
Proof. split_and!; [vm_compute; reflexivity..|discriminate]. Qed.

(** ** Pressing a key twice *)

(** C5, as the code has it.  The same key-down event for a supported key,
    handled twice in a row: the second call leaves the table as the first
    left it, no key code occurs twice among the pressed codes and no other
    entry has changed.  A key of the table is among the pressed codes; a
    modifier key code is not, and for it the table is the one before the
    first call. *)
Theorem repeated_press_is_idempotent (kb : hid_keyboard)
    (event : SDL_KeyboardEvent) (e1 e2 : env) (content : nat → Z) :
  length (keys kb) = HID_KEYBOARD_KEYS →
  malloc_result e1 = Some content →
  type event = SDL_KEYDOWN →
  repeat event = 0 →
  supported (scancode (keysym event)) →
  ∃ kb1 kb2,
    sc_key_processor_process_key kb event e1 = Some kb1
    ∧ sc_key_processor_process_key kb1 event e2 = Some kb2
    ∧ keys kb2 = keys kb1
    ∧ NoDup (pressed_codes (keys kb2))
    ∧ (∀ k, k ≠ key_index event → keys kb2 !! k = keys kb !! k)
    ∧ (scancode (keysym event) < Z.of_nat HID_KEYBOARD_KEYS →
       key_index event ∈ pressed_codes (keys kb2))
    ∧ (SDL_SCANCODE_LCTRL ≤ scancode (keysym event) ≤ SDL_SCANCODE_RGUI →
       keys kb2 = keys kb ∧ key_index event ∉ pressed_codes (keys kb2)).
Proof.
  intros Hlen He1 Hty Hrep Hsup.
  pose proof (supported_nonneg _ Hsup) as Hsc.
  eexists.
  assert (∃ kb2,
            sc_key_processor_process_key
              {| key_processor := key_processor kb;
                 aoa := aoa kb
                        ++ [push_hid_event
                              (envelope_of event (keys_after (keys kb) event))];
                 keys := keys_after (keys kb) event |} event e2
            = Some kb2
            ∧ keys kb2 = keys_after (keys kb) event) as (kb2 & Hrun2 & Hkeys2).
  { destruct (malloc_result e2) as [content2|] eqn:He2.
    - eexists. split.
      + apply (process_key_supported _ _ _ content2); try done.
        cbn [keys]. by rewrite keys_after_length.
      + cbn [keys]. apply keys_after_twice.
    - eexists. split; [by apply process_key_null|done]. }
  exists kb2. split_and!.
  - by apply (process_key_supported _ _ _ content).
  - exact Hrun2.
  - by rewrite Hkeys2.
  - apply pressed_in_NoDup.
  - intros k Hne. rewrite Hkeys2. by apply keys_after_other.
  - intros Hin. rewrite Hkeys2.
    apply elem_of_pressed_codes, keys_after_press; [done..|lia].
  - intros Hmod. pose proof (modifier_out_of_table _ Hmod) as Hout.
    rewrite Hkeys2, keys_after_out_of_table by done. split; [done|].
    intros Hin%pressed_in_bound. unfold key_index in Hin. lia.
Qed.

Lemma repeated_press_is_idempotent_witness :
  (∃ kb1 kb2,
     sc_key_processor_process_key (kb_with keys_three) press_a env_sample
     = Some kb1
     ∧ sc_key_processor_process_key kb1 press_a env_sample = Some kb2
     ∧ keys kb2 = keys kb1
     ∧ NoDup (pressed_codes (keys kb2))
     ∧ (∀ k, k ≠ key_index press_a →
             keys kb2 !! k = keys (kb_with keys_three) !! k)
     ∧ (scancode (keysym press_a) < Z.of_nat HID_KEYBOARD_KEYS →
        key_index press_a ∈ pressed_codes (keys kb2))
     ∧ (SDL_SCANCODE_LCTRL ≤ scancode (keysym press_a) ≤ SDL_SCANCODE_RGUI →
        keys kb2 = keys (kb_with keys_three)
        ∧ key_index press_a ∉ pressed_codes (keys kb2)))
  ∧ (∃ kb1 kb2,
       sc_key_processor_process_key (kb_with keys_three) press_lshift
         env_sample
       = Some kb1
       ∧ sc_key_processor_process_key kb1 press_lshift env_sample = Some kb2
       ∧ keys kb2 = keys kb1
       ∧ NoDup (pressed_codes (keys kb2))
       ∧ (∀ k, k ≠ key_index press_lshift →
               keys kb2 !! k = keys (kb_with keys_three) !! k)
       ∧ (scancode (keysym press_lshift) < Z.of_nat HID_KEYBOARD_KEYS →
          key_index press_lshift ∈ pressed_codes (keys kb2))
       ∧ (SDL_SCANCODE_LCTRL ≤ scancode (keysym press_lshift)
          ≤ SDL_SCANCODE_RGUI →
          keys kb2 = keys (kb_with keys_three)
          ∧ key_index press_lshift ∉ pressed_codes (keys kb2)))
  ∧ process_keys (kb_with keys_three)
      [(press_a, env_sample); (press_a, env_sample)]
    = Some {| key_processor := true;
              aoa := [push_hid_event
                        {| from_accessory_id := HID_KEYBOARD_ACCESSORY_ID;
                           buffer := Some [0; 0; 4; 7; 8; 9; 0; 0];
                           size := 8 |};
                      push_hid_event
                        {| from_accessory_id := HID_KEYBOARD_ACCESSORY_ID;
                           buffer := Some [0; 0; 4; 7; 8; 9; 0; 0];
                           size := 8 |}];
              keys := <[4%nat:=true]> keys_three |}
  ∧ pressed_codes (<[4%nat:=true]> keys_three) = [4; 7; 8; 9]%nat.
Proof.
  split; [|split; [|split]].
  - apply (repeated_press_is_idempotent (kb_with keys_three) press_a
             env_sample env_sample (λ _, 0xAA)).
    + reflexivity.
    + reflexivity.
    + reflexivity.
    + reflexivity.
    + left. sample_code.
  - apply (repeated_press_is_idempotent (kb_with keys_three) press_lshift
             env_sample env_sample (λ _, 0xAA)).
    + reflexivity.
    + reflexivity.
    + reflexivity.
    + reflexivity.
    + right. sample_code.
  - vm_compute. reflexivity.
  - vm_compute. reflexivity.
Defined.

(** C5 as stated fails for a modifier key: Left-Shift is a supported key,
    two presses in a row are both answered with a report, and the set of
    pressed codes is empty afterwards, so key code 225 is not in it. *)
Lemma modifier_pressed_twice_not_in_set :
  supported (scancode (keysym press_lshift))
  ∧ process_keys (kb_reset [])
      [(press_lshift, env_sample); (press_lshift, env_sample)]
    = Some {| key_processor := true;
              aoa := [push_hid_event
                        {| from_accessory_id := HID_KEYBOARD_ACCESSORY_ID;
                           buffer := Some [0x02; 0; 0; 0; 0; 0; 0; 0];
                           size := 8 |};
                      push_hid_event
                        {| from_accessory_id := HID_KEYBOARD_ACCESSORY_ID;
                           buffer := Some [0x02; 0; 0; 0; 0; 0; 0; 0];
                           size := 8 |}];
              keys := replicate HID_KEYBOARD_KEYS false |}
  ∧ pressed_codes (replicate HID_KEYBOARD_KEYS false) = []
  ∧ key_index press_lshift
    ∉ pressed_codes (replicate HID_KEYBOARD_KEYS false).
Proof.
  split_and!.
  - right. unfold press_lshift, SDL_SCANCODE_LCTRL, SDL_SCANCODE_LSHIFT,
      SDL_SCANCODE_RGUI.
    cbn [key_event keysym scancode]. lia.
  - vm_compute. reflexivity.
  - apply pressed_codes_replicate_false.
  - rewrite pressed_codes_replicate_false. apply not_elem_of_nil.
Qed.

(** ** The modifier mask, bit by bit *)

Section mask.
Implicit Types (m k n : Z).

Lemma land_pow2 m k :
  0 ≤ k → Z.land m (2 ^ k) = if Z.testbit m k then 2 ^ k else 0.
Proof.
  intros Hk. apply Z.bits_inj'. intros n Hn.
  rewrite Z.land_spec, Z.pow2_bits_eqb by done.
  destruct (Z.eqb_spec k n) as [->|Hne].
  - destruct (Z.testbit m n) eqn:Hm; cbn [andb].
    + by rewrite Z.pow2_bits_eqb, Z.eqb_refl.
    + by rewrite Z.bits_0.
  - rewrite andb_false_r. destruct (Z.testbit m k).
    + rewrite Z.pow2_bits_eqb by done. symmetry. by apply Z.eqb_neq.
    + by rewrite Z.bits_0.
Qed.

Lemma flag_set_testbit m k : 0 ≤ k → flag_set m (2 ^ k) = Z.testbit m k.
Proof.
  intros Hk. unfold flag_set. rewrite land_pow2 by done.
  destruct (Z.testbit m k); [|done].
  apply negb_true_iff, Z.eqb_neq. pose proof (Z.pow_pos_nonneg 2 k). lia.
Qed.

Lemma or_if_set_flag m flag modifiers bit :
  or_if_set m flag modifiers bit
  = if flag_set m flag then to_uchar (Z.lor modifiers bit) else modifiers.
Proof. reflexivity. Qed.

(** The mask as a function of the eight flags alone. *)
Lemma sdl_keymod_to_hid_modifiers_flags m :
  sdl_keymod_to_hid_modifiers m
  = mask_of_flags (flag_set m KMOD_LCTRL) (flag_set m KMOD_LSHIFT)
      (flag_set m KMOD_LALT) (flag_set m KMOD_LGUI) (flag_set m KMOD_RCTRL)
      (flag_set m KMOD_RSHIFT) (flag_set m KMOD_RALT) (flag_set m KMOD_RGUI).
Proof.
  unfold sdl_keymod_to_hid_modifiers. rewrite !or_if_set_flag.
  destruct (flag_set m KMOD_LCTRL), (flag_set m KMOD_LSHIFT),
    (flag_set m KMOD_LALT), (flag_set m KMOD_LGUI), (flag_set m KMOD_RCTRL),
    (flag_set m KMOD_RSHIFT), (flag_set m KMOD_RALT), (flag_set m KMOD_RGUI);
    reflexivity.
Qed.

Lemma testbit_flag_bit (flag : bool) (i n : Z) :
  0 ≤ i → 0 ≤ n → Z.testbit (flag_bit flag i) n = (i =? n) && flag.
Proof.
  intros Hi Hn. unfold flag_bit. destruct flag.
  - rewrite Z.shiftl_1_l, Z.pow2_bits_eqb by done. by rewrite andb_true_r.
  - by rewrite Z.bits_0, andb_false_r.
Qed.

Lemma testbit_mask_of_flags (f0 f1 f2 f3 f4 f5 f6 f7 : bool) n :
  0 ≤ n →
  Z.testbit (mask_of_flags f0 f1 f2 f3 f4 f5 f6 f7) n
  = ((0 =? n) && f0) || ((1 =? n) && f1) || ((2 =? n) && f2)
    || ((3 =? n) && f3) || ((4 =? n) && f4) || ((5 =? n) && f5)
    || ((6 =? n) && f6) || ((7 =? n) && f7).
Proof.
  intros Hn. unfold mask_of_flags.
  rewrite !Z.lor_spec, !testbit_flag_bit by lia.
  by rewrite !orb_assoc.
Qed.

Lemma mask_of_flags_range (f0 f1 f2 f3 f4 f5 f6 f7 : bool) :
  0 ≤ mask_of_flags f0 f1 f2 f3 f4 f5 f6 f7 < 256.
Proof.
  destruct f0, f1, f2, f3, f4, f5, f6, f7; vm_compute; split; congruence.
Qed.

Lemma mask_of_flags_orb (a0 a1 a2 a3 a4 a5 a6 a7 b0 b1 b2 b3 b4 b5 b6 b7 : bool) :
  mask_of_flags (a0 || b0) (a1 || b1) (a2 || b2) (a3 || b3) (a4 || b4)
    (a5 || b5) (a6 || b6) (a7 || b7)
  = Z.lor (mask_of_flags a0 a1 a2 a3 a4 a5 a6 a7)
      (mask_of_flags b0 b1 b2 b3 b4 b5 b6 b7).
Proof.
  apply Z.bits_inj'. intros n Hn.
  rewrite Z.lor_spec, !testbit_mask_of_flags by done.
  assert (n = 0 ∨ n = 1 ∨ n = 2 ∨ n = 3 ∨ n = 4 ∨ n = 5 ∨ n = 6 ∨ n = 7
          ∨ 8 ≤ n) as Hcases by lia.
  destruct Hcases as [->|[->|[->|[->|[->|[->|[->|[->|Hhigh]]]]]]]];
    [..|rewrite !(proj2 (Z.eqb_neq _ n)) by lia; reflexivity];
    cbn [Z.eqb Pos.eqb andb orb];
    repeat
      match goal with
      | |- context [?x || false] => rewrite (orb_false_r x)
      end;
    reflexivity.
Qed.

Lemma flag_set_lor m1 m2 k :
  0 ≤ k →
  flag_set (Z.lor m1 m2) (2 ^ k) = flag_set m1 (2 ^ k) || flag_set m2 (2 ^ k).
Proof. intros Hk. by rewrite !flag_set_testbit, Z.lor_spec. Qed.
End mask.

(** X1. Bit [i] of the modifier byte is set exactly when the [i]-th of the
    eight flags (Left-Control, Left-Shift, Left-Alt, Left-GUI, then the
    right-hand ones) is set in the SDL modifier state, and the byte has no
    other bit: it lies in 0..255. *)
Theorem modifier_mask_bit_per_flag (m : Z) :
  Z.testbit (sdl_keymod_to_hid_modifiers m) 0 = flag_set m KMOD_LCTRL
  ∧ Z.testbit (sdl_keymod_to_hid_modifiers m) 1 = flag_set m KMOD_LSHIFT
  ∧ Z.testbit (sdl_keymod_to_hid_modifiers m) 2 = flag_set m KMOD_LALT
  ∧ Z.testbit (sdl_keymod_to_hid_modifiers m) 3 = flag_set m KMOD_LGUI
  ∧ Z.testbit (sdl_keymod_to_hid_modifiers m) 4 = flag_set m KMOD_RCTRL
  ∧ Z.testbit (sdl_keymod_to_hid_modifiers m) 5 = flag_set m KMOD_RSHIFT
  ∧ Z.testbit (sdl_keymod_to_hid_modifiers m) 6 = flag_set m KMOD_RALT
  ∧ Z.testbit (sdl_keymod_to_hid_modifiers m) 7 = flag_set m KMOD_RGUI
  ∧ 0 ≤ sdl_keymod_to_hid_modifiers m < 256.
Proof.
  rewrite sdl_keymod_to_hid_modifiers_flags.
  split_and!; try apply mask_of_flags_range;
    rewrite testbit_mask_of_flags by lia;
    cbn [Z.eqb Pos.eqb andb orb];
    repeat
      match goal with
      | |- context [?x || false] => rewrite (orb_false_r x)
      end;
    reflexivity.
Qed.

(** X2. The flags are translated independently of each other: the byte for
    the union of two modifier states is the bitwise or of their bytes. *)
Theorem modifier_mask_of_union (m1 m2 : Z) :
  sdl_keymod_to_hid_modifiers (Z.lor m1 m2)
  = Z.lor (sdl_keymod_to_hid_modifiers m1) (sdl_keymod_to_hid_modifiers m2).
Proof.
  rewrite !sdl_keymod_to_hid_modifiers_flags.
  change KMOD_LCTRL with (2 ^ 6). change KMOD_LSHIFT with (2 ^ 0).
  change KMOD_LALT with (2 ^ 8). change KMOD_LGUI with (2 ^ 10).
  change KMOD_RCTRL with (2 ^ 7). change KMOD_RSHIFT with (2 ^ 1).
  change KMOD_RALT with (2 ^ 9). change KMOD_RGUI with (2 ^ 11).
  rewrite !flag_set_lor by lia. apply mask_of_flags_orb.
Qed.

(** X3. Nothing but the eight flags reaches the modifier byte: two modifier
    states that agree on them (and differ, say, in Num-Lock or Caps-Lock)
    give the same byte. *)
Theorem modifier_mask_ignores_other_flags (m m' : Z) :
  Forall (λ flag, flag_set m flag = flag_set m' flag) modifier_flags →
  sdl_keymod_to_hid_modifiers m = sdl_keymod_to_hid_modifiers m'.
Proof.
  unfold modifier_flags. rewrite !Forall_cons.
  intros (H0 & H1 & H2 & H3 & H4 & H5 & H6 & H7 & _).
  rewrite !sdl_keymod_to_hid_modifiers_flags. congruence.
Qed.

Lemma modifier_mask_ignores_other_flags_witness :
  sdl_keymod_to_hid_modifiers (Z.lor KMOD_LSHIFT KMOD_NUM)
  = sdl_keymod_to_hid_modifiers KMOD_LSHIFT.
Proof.
  apply (modifier_mask_ignores_other_flags (Z.lor KMOD_LSHIFT KMOD_NUM)
           KMOD_LSHIFT).
  repeat constructor.
Defined.

(** ** Every event, every environment *)

Section every_event.
Implicit Types (kb : hid_keyboard) (event : SDL_KeyboardEvent) (e : env)
  (steps : list (SDL_KeyboardEvent * env)).

Lemma is_byte_bounds (c : Z) : is_byte c = true ↔ 0 ≤ c < 256.
Proof. unfold is_byte. rewrite andb_true_iff, Z.leb_le, Z.ltb_lt. done. Qed.

Lemma slots_after_bytes (codes : list nat) (c : Z) :
  c ∈ slots_after [] codes → is_byte c = true.
Proof.
  unfold slots_after. intros Hc. apply is_byte_bounds. case_decide.
  - cbn [app] in Hc. apply elem_of_app in Hc as [Hc|Hc].
    + apply list_elem_of_fmap in Hc as (j & -> & _).
      unfold code_byte, to_uchar. apply Z.mod_pos_bound. lia.
    + apply elem_of_replicate_inv in Hc as ->. lia.
  - apply elem_of_replicate_inv in Hc as ->.
    unfold HID_KEYBOARD_ERROR_ROLL_OVER. lia.
Qed.

Lemma report_of_bytes event (keys : list bool) (c : Z) :
  c ∈ report_of event keys → is_byte c = true.
Proof.
  unfold report_of. rewrite !elem_of_cons. intros [->|[->|Hc]].
  - apply is_byte_bounds. rewrite sdl_keymod_to_hid_modifiers_flags.
    apply mask_of_flags_range.
  - reflexivity.
  - by apply slots_after_bytes in Hc.
Qed.

Lemma is_boot_report_envelope event (keys : list bool) :
  is_boot_report (push_hid_event (envelope_of event keys)) = true.
Proof.
  unfold is_boot_report, envelope_of. cbn [from_accessory_id size buffer].
  rewrite !Z.eqb_refl. cbn [andb].
  rewrite bool_decide_eq_true_2 by apply length_report_of. cbn [andb].
  apply forallb_forall. intros c Hc%list_elem_of_In.
  by apply report_of_bytes in Hc.
Qed.

Lemma request_id_envelope event (keys : list bool) :
  request_id (push_hid_event (envelope_of event keys))
  = HID_KEYBOARD_ACCESSORY_ID.
Proof. reflexivity. Qed.

(** The two ways a call can end. *)
Lemma process_key_cases kb event e :
  length (keys kb) = HID_KEYBOARD_KEYS →
  admissible event →
  (sends_report event e
   ∧ sc_key_processor_process_key kb event e
     = Some {| key_processor := key_processor kb;
               aoa := aoa kb
                      ++ [push_hid_event
                            (envelope_of event (keys_after (keys kb) event))];
               keys := keys_after (keys kb) event |})
  ∨ (¬ sends_report event e
     ∧ sc_key_processor_process_key kb event e = Some kb).
Proof.
  intros Hlen Hadm. unfold sends_report.
  destruct (decide (repeat event = 0)) as [Hrep|Hrep].
  2: { right. split; [tauto|by apply process_key_repeat]. }
  destruct Hadm as [?|Hsc]; [done|].
  destruct (malloc_result e) as [content|] eqn:He.
  2: { right. split; [|by apply process_key_null].
       intros (_ & _ & [? ?]). done. }
  destruct ((scancode (keysym event) <? Z.of_nat HID_KEYBOARD_KEYS)
            || scancode_is_modifier (scancode (keysym event))) eqn:Htest.
  - apply supported_test in Htest; [|done]. left. split; [by eauto|].
    by apply (process_key_supported _ _ _ content).
  - right. assert (¬ supported (scancode (keysym event))) as Hun.
    { intros Hsup%supported_test; [congruence|done]. }
    split; [tauto|by apply process_key_unsupported].
Qed.

(** A run of admissible events from a table of the right size. *)
Lemma process_keys_admissible steps : ∀ kb,
  length (keys kb) = HID_KEYBOARD_KEYS →
  Forall (λ s, admissible s.1) steps →
  ∃ kb' new,
    process_keys kb steps = Some kb'
    ∧ length (keys kb') = HID_KEYBOARD_KEYS
    ∧ key_processor kb' = key_processor kb
    ∧ aoa kb' = aoa kb ++ new
    ∧ (length new ≤ length steps)%nat
    ∧ Forall (λ r, is_boot_report r = true) new
    ∧ Forall (λ r, request_id r = HID_KEYBOARD_ACCESSORY_ID) new
    ∧ ∀ j, j ∉ key_index <$> steps.*1 → keys kb' !! j = keys kb !! j.
Proof.
  induction steps as [|[event e] steps IH]; intros kb Hlen Hall.
  - exists kb, []. rewrite app_nil_r. by split_and!.
  - rewrite Forall_cons in Hall. destruct Hall as [Hadm Hall].
    cbn [fst] in Hadm. cbn [process_keys].
    destruct (process_key_cases kb event e Hlen Hadm)
      as [[_ Hrun]|[_ Hrun]]; rewrite Hrun, bind_ret.
    + pose proof
        (IH {| key_processor := key_processor kb;
               aoa := aoa kb
                      ++ [push_hid_event
                            (envelope_of event (keys_after (keys kb) event))];
               keys := keys_after (keys kb) event |}) as IH'.
      cbn [keys aoa key_processor] in IH'.
      destruct IH' as (kb' & new & Hrun' & Hlen' & Hkp & Haoa & Hn & Hb
                       & Hid & Hframe);
        [by rewrite keys_after_length|done|].
      exists kb', (push_hid_event
                     (envelope_of event (keys_after (keys kb) event)) :: new).
      split_and!; try done.
      * by rewrite Haoa, <-app_assoc.
      * cbn [length]. lia.
      * constructor; [apply is_boot_report_envelope|done].
      * constructor; [apply request_id_envelope|done].
      * intros j Hj. rewrite fmap_cons, fmap_cons, not_elem_of_cons in Hj.
        destruct Hj as [Hne Hj]. rewrite Hframe by done.
        by apply keys_after_other.
    + destruct (IH kb Hlen Hall)
        as (kb' & new & Hrun' & Hlen' & Hkp & Haoa & Hn & Hb & Hid & Hframe).
      exists kb', new. split_and!; try done.
      * cbn [length]. lia.
      * intros j Hj. rewrite fmap_cons, fmap_cons, not_elem_of_cons in Hj.
        apply Hframe. tauto.
Qed.
End every_event.

(** X4. For every event that does not trip the assertion, on a table of
    [HID_KEYBOARD_KEYS] entries, the entry point returns without leaving an
    array.  It sends a report exactly when the event is not a repeat, its
    key code is supported and [malloc] succeeded: then one request is added,
    carrying the report of the updated table; otherwise the keyboard comes
    back unchanged. *)
Theorem report_sent_exactly_when (kb : hid_keyboard)
    (event : SDL_KeyboardEvent) (e : env) :
  length (keys kb) = HID_KEYBOARD_KEYS →
  admissible event →
  ∃ kb',
    sc_key_processor_process_key kb event e = Some kb'
    ∧ length (keys kb') = HID_KEYBOARD_KEYS
    ∧ key_processor kb' = key_processor kb
    ∧ (sends_report event e →
       keys kb' = keys_after (keys kb) event
       ∧ aoa kb'
         = aoa kb ++ [push_hid_event (envelope_of event (keys kb'))])
    ∧ (¬ sends_report event e → kb' = kb).
Proof.
  intros Hlen Hadm.
  destruct (process_key_cases kb event e Hlen Hadm)
    as [[Hsend Hrun]|[Hnot Hrun]]; eexists; (split; [exact Hrun|]).
  - cbn [keys aoa key_processor]. rewrite keys_after_length.
    by split_and!.
  - by split_and!.
Qed.

Lemma report_sent_exactly_when_witness :
  ∃ kb',
    sc_key_processor_process_key (kb_reset []) press_lshift env_sample
    = Some kb'
    ∧ length (keys kb') = HID_KEYBOARD_KEYS
    ∧ key_processor kb' = key_processor (kb_reset [])
    ∧ (sends_report press_lshift env_sample →
       keys kb' = keys_after (keys (kb_reset [])) press_lshift
       ∧ aoa kb'
         = aoa (kb_reset [])
           ++ [push_hid_event (envelope_of press_lshift (keys kb'))])
    ∧ (¬ sends_report press_lshift env_sample → kb' = kb_reset []).
Proof.
  apply (report_sent_exactly_when (kb_reset []) press_lshift env_sample).
  - reflexivity.
  - right. unfold press_lshift, SDL_SCANCODE_LSHIFT.
    cbn [key_event keysym scancode]. lia.
Defined.

(** X5. A run of events that do not trip the assertion, from a table of
    [HID_KEYBOARD_KEYS] entries: it has a result, the table keeps its size,
    earlier requests stay in place, at most one request is added per event,
    every added request is a well-formed boot-keyboard report (accessory id
    1, size 8, eight values in 0..255), and an entry whose key code occurs in
    no event keeps its value. *)
Theorem run_keeps_table_and_requests_well_formed (kb : hid_keyboard)
    (steps : list (SDL_KeyboardEvent * env)) :
  length (keys kb) = HID_KEYBOARD_KEYS →
  Forall (λ s, admissible s.1) steps →
  ∃ kb' new,
    process_keys kb steps = Some kb'
    ∧ length (keys kb') = HID_KEYBOARD_KEYS
    ∧ key_processor kb' = key_processor kb
    ∧ aoa kb' = aoa kb ++ new
    ∧ (length new ≤ length steps)%nat
    ∧ Forall (λ r, is_boot_report r = true) new
    ∧ Forall (λ r, request_id r = HID_KEYBOARD_ACCESSORY_ID) new
    ∧ ∀ j, j ∉ key_index <$> steps.*1 → keys kb' !! j = keys kb !! j.
Proof. apply process_keys_admissible. Qed.

Lemma run_keeps_table_and_requests_well_formed_witness :
  ∃ kb' new,
    process_keys (kb_reset [])
      [(press_a, env_sample); (press_lshift, env_null);
       (key_event SDL_KEYUP 150 0, env_sample)]
    = Some kb'
    ∧ length (keys kb') = HID_KEYBOARD_KEYS
    ∧ key_processor kb' = key_processor (kb_reset [])
    ∧ aoa kb' = aoa (kb_reset []) ++ new
    ∧ (length new
       ≤ length [(press_a, env_sample); (press_lshift, env_null);
                 (key_event SDL_KEYUP 150 0, env_sample)])%nat
    ∧ Forall (λ r, is_boot_report r = true) new
    ∧ Forall (λ r, request_id r = HID_KEYBOARD_ACCESSORY_ID) new
    ∧ ∀ j, j ∉ key_index
                 <$> [(press_a, env_sample); (press_lshift, env_null);
                      (key_event SDL_KEYUP 150 0, env_sample)].*1 →
           keys kb' !! j = keys (kb_reset []) !! j.
Proof.
  apply (run_keeps_table_and_requests_well_formed (kb_reset [])
           [(press_a, env_sample); (press_lshift, env_null);
            (key_event SDL_KEYUP 150 0, env_sample)]).
  - reflexivity.
  - repeat
      (apply Forall_cons; split;
       [right;
        unfold press_a, press_lshift, SDL_SCANCODE_A, SDL_SCANCODE_LSHIFT;
        cbn [key_event keysym scancode fst]; lia|]).
    constructor.
Defined.

(** X6. No uninitialised memory reaches the table or the transport: the
    outcome of a call depends on the environment only through whether
    [malloc] succeeded, not on what the block held, on what the stack slot of
    the envelope held, or on the transport's answer. *)
Theorem outcome_ignores_uninitialised_memory (kb : hid_keyboard)
    (event : SDL_KeyboardEvent) (e1 e2 : env) :
  length (keys kb) = HID_KEYBOARD_KEYS →
  admissible event →
  (is_Some (malloc_result e1) ↔ is_Some (malloc_result e2)) →
  sc_key_processor_process_key kb event e1
  = sc_key_processor_process_key kb event e2.
Proof.
  intros Hlen Hadm Hsame.
  assert (sends_report event e1 ↔ sends_report event e2) as Hsend
    by (unfold sends_report; tauto).
  destruct (process_key_cases kb event e1 Hlen Hadm) as [[H1 ->]|[H1 ->]];
    destruct (process_key_cases kb event e2 Hlen Hadm) as [[H2 ->]|[H2 ->]];
    tauto.
Qed.

Lemma outcome_ignores_uninitialised_memory_witness :
  sc_key_processor_process_key (kb_reset []) press_a env_sample
  = sc_key_processor_process_key (kb_reset []) press_a
      (env_ok (λ i, Z.of_nat i)
         {| from_accessory_id := 7; buffer := Some [1; 2; 3]; size := 3 |}
         false).
Proof.
  apply (outcome_ignores_uninitialised_memory (kb_reset []) press_a
           env_sample
           (env_ok (λ i, Z.of_nat i)
              {| from_accessory_id := 7; buffer := Some [1; 2; 3];
                 size := 3 |}
              false)).
  - reflexivity.
  - right. unfold press_a, SDL_SCANCODE_A.
    cbn [key_event keysym scancode]. lia.
  - split; intros _; by eexists.
Defined.

(** ** The pressed set under one event *)

Section pressed_set.
Implicit Types (kb : hid_keyboard) (event : SDL_KeyboardEvent) (e : env)
  (keys : list bool) (k j : nat).

Lemma pressed_codes_press keys k :
  keys !! k = Some false →
  pressed_codes (<[k:=true]> keys) ≡ₚ k :: pressed_codes keys.
Proof.
  intros Hk. pose proof (lookup_lt_Some _ _ _ Hk) as Hlt.
  apply NoDup_Permutation.
  - apply pressed_in_NoDup.
  - apply NoDup_cons. split; [|apply pressed_in_NoDup].
    rewrite elem_of_pressed_codes. congruence.
  - intros j. rewrite elem_of_cons, !elem_of_pressed_codes.
    destruct (decide (j = k)) as [->|Hne].
    + rewrite list_lookup_insert_eq by done. tauto.
    + rewrite list_lookup_insert_ne by done. tauto.
Qed.

Lemma pressed_codes_release keys k :
  keys !! k = Some true →
  k :: pressed_codes (<[k:=false]> keys) ≡ₚ pressed_codes keys.
Proof.
  intros Hk. pose proof (lookup_lt_Some _ _ _ Hk) as Hlt.
  apply NoDup_Permutation.
  - apply NoDup_cons. split; [|apply pressed_in_NoDup].
    rewrite elem_of_pressed_codes, list_lookup_insert_eq by done. congruence.
  - apply pressed_in_NoDup.
  - intros j. rewrite elem_of_cons, !elem_of_pressed_codes.
    destruct (decide (j = k)) as [->|Hne].
    + rewrite list_lookup_insert_eq by done. split; [by intros _|by left].
    + rewrite list_lookup_insert_ne by done. tauto.
Qed.

Lemma keys_after_insert keys event :
  scancode (keysym event) < Z.of_nat HID_KEYBOARD_KEYS →
  keys_after keys event
  = <[key_index event:=(type event =? SDL_KEYDOWN)]> keys.
Proof.
  intros Hsc. unfold keys_after, key_index.
  by rewrite (proj2 (Z.ltb_lt _ _)) by done.
Qed.

Lemma key_index_in_table keys event :
  length keys = HID_KEYBOARD_KEYS →
  0 ≤ scancode (keysym event) < Z.of_nat HID_KEYBOARD_KEYS →
  (key_index event < length keys)%nat.
Proof. intros Hlen Hsc. unfold key_index. lia. Qed.

Lemma elem_of_pressed_codes_after keys event j :
  length keys = HID_KEYBOARD_KEYS →
  0 ≤ scancode (keysym event) < Z.of_nat HID_KEYBOARD_KEYS →
  j ∈ pressed_codes (keys_after keys event)
  ↔ (j = key_index event ∧ type event = SDL_KEYDOWN)
    ∨ (j ≠ key_index event ∧ j ∈ pressed_codes keys).
Proof.
  intros Hlen Hsc. pose proof (key_index_in_table _ _ Hlen Hsc) as Hlt.
  rewrite keys_after_insert, !elem_of_pressed_codes by lia.
  destruct (decide (j = key_index event)) as [->|Hne].
  - rewrite list_lookup_insert_eq by done.
    destruct (Z.eqb_spec (type event) SDL_KEYDOWN) as [Hty|Hty].
    + split; [by left|done].
    + split; [done|]. intros [[_ ?]|[? _]]; done.
  - rewrite list_lookup_insert_ne by done. tauto.
Qed.

(** A call that sends a report, with the report it sends. *)
Lemma process_key_sends kb event e :
  length (keys kb) = HID_KEYBOARD_KEYS →
  sends_report event e →
  ∃ kb',
    sc_key_processor_process_key kb event e = Some kb'
    ∧ keys kb' = keys_after (keys kb) event
    ∧ length (keys kb') = HID_KEYBOARD_KEYS
    ∧ last_report (aoa kb')
      = Some (report_of event (keys_after (keys kb) event)).
Proof.
  intros Hlen (Hrep & Hsup & [content He]). eexists. split.
  - by apply (process_key_supported _ _ _ content).
  - cbn [keys aoa]. split_and!; [done|by rewrite keys_after_length|].
    by rewrite (last_report_push _ _ (last_snoc _ _)).
Qed.

Lemma pressed_count_press keys event :
  length keys = HID_KEYBOARD_KEYS →
  0 ≤ scancode (keysym event) < Z.of_nat HID_KEYBOARD_KEYS →
  type event = SDL_KEYDOWN →
  keys !! key_index event = Some false →
  length (pressed_codes (keys_after keys event))
  = S (length (pressed_codes keys)).
Proof.
  intros Hlen Hsc Hty Hk. rewrite keys_after_insert, Hty by lia.
  by rewrite (pressed_codes_press _ _ Hk).
Qed.

Lemma pressed_count_release keys event :
  length keys = HID_KEYBOARD_KEYS →
  0 ≤ scancode (keysym event) < Z.of_nat HID_KEYBOARD_KEYS →
  type event ≠ SDL_KEYDOWN →
  keys !! key_index event = Some true →
  S (length (pressed_codes (keys_after keys event)))
  = length (pressed_codes keys).
Proof.
  intros Hlen Hsc Hty Hk. rewrite keys_after_insert by lia.
  rewrite (proj2 (Z.eqb_neq _ _)) by done.
  by rewrite <-(pressed_codes_release _ _ Hk).
Qed.

Lemma keys_after_same keys event :
  scancode (keysym event) < Z.of_nat HID_KEYBOARD_KEYS →
  keys !! key_index event = Some (type event =? SDL_KEYDOWN) →
  keys_after keys event = keys.
Proof.
  intros Hsc Hk. rewrite keys_after_insert by done. by apply list_insert_id.
Qed.
End pressed_set.

(** X7. What one event on a key of the table does to the set of pressed
    codes: a key-down puts the code of the key into the set, any other event
    type takes it out, and every other code stays as it was.  The number of
    pressed codes goes up by one for a press of a key that was up, down by
    one for a release of a key that was down, and the table does not change
    at all for a press of a key already down or a release of a key that was
    up. *)
Theorem event_updates_pressed_set (kb : hid_keyboard)
    (event : SDL_KeyboardEvent) (e : env) :
  length (keys kb) = HID_KEYBOARD_KEYS →
  sends_report event e →
  0 ≤ scancode (keysym event) < Z.of_nat HID_KEYBOARD_KEYS →
  ∃ kb',
    sc_key_processor_process_key kb event e = Some kb'
    ∧ (∀ j, j ∈ pressed_codes (keys kb')
            ↔ (j = key_index event ∧ type event = SDL_KEYDOWN)
              ∨ (j ≠ key_index event ∧ j ∈ pressed_codes (keys kb)))
    ∧ (type event = SDL_KEYDOWN →
       keys kb !! key_index event = Some false →
       length (pressed_codes (keys kb'))
       = S (length (pressed_codes (keys kb))))
    ∧ (type event ≠ SDL_KEYDOWN →
       keys kb !! key_index event = Some true →
       S (length (pressed_codes (keys kb')))
       = length (pressed_codes (keys kb)))
    ∧ (keys kb !! key_index event = Some (type event =? SDL_KEYDOWN) →
       keys kb' = keys kb).
Proof.
  intros Hlen Hsend Hsc.
  destruct (process_key_sends kb event e Hlen Hsend)
    as (kb' & Hrun & Hkeys & _ & _).
  exists kb'. rewrite Hkeys. split_and!.
  - done.
  - intros j. by apply elem_of_pressed_codes_after.
  - intros Hty Hk. by apply pressed_count_press.
  - intros Hty Hk. by apply pressed_count_release.
  - intros Hk. apply keys_after_same; [lia|done].
Qed.

Lemma event_updates_pressed_set_witness :
  ∃ kb',
    sc_key_processor_process_key (kb_reset []) press_a env_sample = Some kb'
    ∧ (∀ j, j ∈ pressed_codes (keys kb')
            ↔ (j = key_index press_a ∧ type press_a = SDL_KEYDOWN)
              ∨ (j ≠ key_index press_a
                 ∧ j ∈ pressed_codes (keys (kb_reset []))))
    ∧ (type press_a = SDL_KEYDOWN →
       keys (kb_reset []) !! key_index press_a = Some false →
       length (pressed_codes (keys kb'))
       = S (length (pressed_codes (keys (kb_reset [])))))
    ∧ (type press_a ≠ SDL_KEYDOWN →
       keys (kb_reset []) !! key_index press_a = Some true →
       S (length (pressed_codes (keys kb')))
       = length (pressed_codes (keys (kb_reset []))))
    ∧ (keys (kb_reset []) !! key_index press_a
       = Some (type press_a =? SDL_KEYDOWN) →
       keys kb' = keys (kb_reset [])).
Proof.
  apply (event_updates_pressed_set (kb_reset []) press_a env_sample).
  - reflexivity.
  - sample_send.
  - sample_code.
Defined.

(** X8. Pressing a key of the table that was up and releasing it again
    (whatever the modifier flags of the two events) gives back the table as
    it was, and the report sent for the release is the one of that table. *)
Theorem press_then_release_restores (kb : hid_keyboard)
    (down up : SDL_KeyboardEvent) (e1 e2 : env) :
  length (keys kb) = HID_KEYBOARD_KEYS →
  sends_report down e1 →
  sends_report up e2 →
  type down = SDL_KEYDOWN →
  type up ≠ SDL_KEYDOWN →
  scancode (keysym up) = scancode (keysym down) →
  0 ≤ scancode (keysym down) < Z.of_nat HID_KEYBOARD_KEYS →
  keys kb !! key_index down = Some false →
  ∃ kb1 kb2,
    sc_key_processor_process_key kb down e1 = Some kb1
    ∧ sc_key_processor_process_key kb1 up e2 = Some kb2
    ∧ keys kb1 !! key_index down = Some true
    ∧ keys kb2 = keys kb
    ∧ last_report (aoa kb2) = Some (report_of up (keys kb)).
Proof.
  intros Hlen Hsend1 Hsend2 Hdown Hup Hsame Hsc Hk.
  destruct (process_key_sends kb down e1 Hlen Hsend1)
    as (kb1 & Hrun1 & Hkeys1 & Hlen1 & _).
  destruct (process_key_sends kb1 up e2 Hlen1 Hsend2)
    as (kb2 & Hrun2 & Hkeys2 & _ & Hlast).
  assert (keys_after (keys kb1) up = keys kb) as Hback.
  { rewrite Hkeys1, !keys_after_insert by lia.
    unfold key_index. rewrite Hsame, Hdown.
    rewrite (proj2 (Z.eqb_neq _ _)) by done.
    rewrite list_insert_insert_eq. by apply list_insert_id. }
  exists kb1, kb2. split_and!; try done.
  - rewrite Hkeys1. by apply keys_after_press.
  - by rewrite Hkeys2.
  - by rewrite Hlast, Hback.
Qed.

Lemma press_then_release_restores_witness :
  ∃ kb1 kb2,
    sc_key_processor_process_key (kb_reset []) press_a env_sample = Some kb1
    ∧ sc_key_processor_process_key kb1 release_a env_sample = Some kb2
    ∧ keys kb1 !! key_index press_a = Some true
    ∧ keys kb2 = keys (kb_reset [])
    ∧ last_report (aoa kb2) = Some (report_of release_a (keys (kb_reset []))).
Proof.
  apply (press_then_release_restores (kb_reset []) press_a release_a
           env_sample env_sample).
  - reflexivity.
  - sample_send.
  - sample_send.
  - reflexivity.
  - discriminate.
  - reflexivity.
  - sample_code.
  - reflexivity.
Defined.

(** X9. Where roll-over starts.  A press of a key of the table that was up
    is recorded in the table in every case.  With fewer than six keys down
    before, the report lists the pressed codes, the new one included, padded
    with zeros; with six or more down before, all six slots hold
    [HID_KEYBOARD_ERROR_ROLL_OVER].  Byte 0 is the modifier byte of the event
    in both cases. *)
Theorem seventh_key_rolls_over (kb : hid_keyboard)
    (event : SDL_KeyboardEvent) (e : env) :
  length (keys kb) = HID_KEYBOARD_KEYS →
  sends_report event e →
  type event = SDL_KEYDOWN →
  0 ≤ scancode (keysym event) < Z.of_nat HID_KEYBOARD_KEYS →
  keys kb !! key_index event = Some false →
  ∃ kb' report,
    sc_key_processor_process_key kb event e = Some kb'
    ∧ last_report (aoa kb') = Some report
    ∧ keys kb' !! key_index event = Some true
    ∧ report !! 0%nat
      = Some (sdl_keymod_to_hid_modifiers (mod_ (keysym event)))
    ∧ ((length (pressed_codes (keys kb)) < HID_KEYBOARD_MAX_KEYS)%nat →
       key_slots report
       = (Z.of_nat <$> pressed_codes (keys kb'))
           ++ replicate
                (HID_KEYBOARD_MAX_KEYS - 1 - length (pressed_codes (keys kb)))
                0)
    ∧ ((HID_KEYBOARD_MAX_KEYS ≤ length (pressed_codes (keys kb)))%nat →
       key_slots report
       = replicate HID_KEYBOARD_MAX_KEYS HID_KEYBOARD_ERROR_ROLL_OVER).
Proof.
  intros Hlen Hsend Hty Hsc Hk.
  destruct (process_key_sends kb event e Hlen Hsend)
    as (kb' & Hrun & Hkeys & Hlen' & Hlast).
  pose proof (pressed_count_press _ _ Hlen Hsc Hty Hk) as Hcount.
  exists kb', (report_of event (keys_after (keys kb) event)).
  rewrite Hkeys. split_and!; try done.
  - by apply keys_after_press.
  - intros Hfew. rewrite key_slots_fit.
    + rewrite Hcount. reflexivity.
    + by rewrite keys_after_length.
    + lia.
  - intros Hmany. rewrite key_slots_report_of, slots_after_overflow; [done|].
    lia.
Qed.

Lemma seventh_key_rolls_over_witness :
  (∃ kb' report,
     sc_key_processor_process_key (kb_with keys_six)
       (key_event SDL_KEYDOWN 20 KMOD_RCTRL) env_sample
     = Some kb'
     ∧ last_report (aoa kb') = Some report
     ∧ keys kb' !! key_index (key_event SDL_KEYDOWN 20 KMOD_RCTRL)
       = Some true
     ∧ report !! 0%nat
       = Some (sdl_keymod_to_hid_modifiers
                 (mod_ (keysym (key_event SDL_KEYDOWN 20 KMOD_RCTRL))))
     ∧ ((length (pressed_codes (keys (kb_with keys_six)))
         < HID_KEYBOARD_MAX_KEYS)%nat →
        key_slots report
        = (Z.of_nat <$> pressed_codes (keys kb'))
            ++ replicate
                 (HID_KEYBOARD_MAX_KEYS - 1
                  - length (pressed_codes (keys (kb_with keys_six))))
                 0)
     ∧ ((HID_KEYBOARD_MAX_KEYS
         ≤ length (pressed_codes (keys (kb_with keys_six))))%nat →
        key_slots report
        = replicate HID_KEYBOARD_MAX_KEYS HID_KEYBOARD_ERROR_ROLL_OVER))
  ∧ (∃ kb' report,
       sc_key_processor_process_key (kb_with keys_three) press_a env_sample
       = Some kb'
       ∧ last_report (aoa kb') = Some report
       ∧ keys kb' !! key_index press_a = Some true
       ∧ report !! 0%nat
         = Some (sdl_keymod_to_hid_modifiers (mod_ (keysym press_a)))
       ∧ ((length (pressed_codes (keys (kb_with keys_three)))
           < HID_KEYBOARD_MAX_KEYS)%nat →
          key_slots report
          = (Z.of_nat <$> pressed_codes (keys kb'))
              ++ replicate
                   (HID_KEYBOARD_MAX_KEYS - 1
                    - length (pressed_codes (keys (kb_with keys_three))))
                   0)
       ∧ ((HID_KEYBOARD_MAX_KEYS
           ≤ length (pressed_codes (keys (kb_with keys_three))))%nat →
          key_slots report
          = replicate HID_KEYBOARD_MAX_KEYS HID_KEYBOARD_ERROR_ROLL_OVER))
  ∧ length (pressed_codes keys_six) = 6%nat
  ∧ last_report
      <$> (aoa <$> sc_key_processor_process_key (kb_with keys_six)
                     (key_event SDL_KEYDOWN 20 KMOD_RCTRL) env_sample)
    = Some (Some [0x10; 0; 1; 1; 1; 1; 1; 1])
  ∧ last_report
      <$> (aoa <$> sc_key_processor_process_key (kb_with keys_three) press_a
                     env_sample)
    = Some (Some [0; 0; 4; 7; 8; 9; 0; 0]).
Proof.
  split; [|split; [|split; [|split]]].
  - apply (seventh_key_rolls_over (kb_with keys_six)
             (key_event SDL_KEYDOWN 20 KMOD_RCTRL) env_sample).
    + reflexivity.
    + sample_send.
    + reflexivity.
    + sample_code.
    + reflexivity.
  - apply (seventh_key_rolls_over (kb_with keys_three) press_a env_sample).
    + reflexivity.
    + sample_send.
    + reflexivity.
    + sample_code.
    + reflexivity.
  - vm_compute. reflexivity.
  - vm_compute. reflexivity.
  - vm_compute. reflexivity.
Defined.

(** X10. Leaving roll-over.  With exactly seven keys of the table down, the
    release of one of them sends a report whose six slots are the codes of
    the six keys still down, in ascending order: the keys held during
    roll-over were all kept in the table. *)
Theorem release_ends_roll_over (kb : hid_keyboard)
    (event : SDL_KeyboardEvent) (e : env) :
  length (keys kb) = HID_KEYBOARD_KEYS →
  sends_report event e →
  type event ≠ SDL_KEYDOWN →
  0 ≤ scancode (keysym event) < Z.of_nat HID_KEYBOARD_KEYS →
  keys kb !! key_index event = Some true →
  length (pressed_codes (keys kb)) = 7%nat →
  ∃ kb' report,
    sc_key_processor_process_key kb event e = Some kb'
    ∧ last_report (aoa kb') = Some report
    ∧ key_slots report = Z.of_nat <$> pressed_codes (keys kb')
    ∧ length (pressed_codes (keys kb')) = 6%nat
    ∧ StronglySorted lt (pressed_codes (keys kb'))
    ∧ ∀ j, j ∈ pressed_codes (keys kb')
           ↔ j ≠ key_index event ∧ j ∈ pressed_codes (keys kb).
Proof.
  intros Hlen Hsend Hty Hsc Hk Hseven.
  destruct (process_key_sends kb event e Hlen Hsend)
    as (kb' & Hrun & Hkeys & Hlen' & Hlast).
  pose proof (pressed_count_release _ _ Hlen Hsc Hty Hk) as Hcount.
  exists kb', (report_of event (keys_after (keys kb) event)).
  rewrite Hkeys. split_and!; try done.
  - rewrite key_slots_fit.
    + replace (length (pressed_codes (keys_after (keys kb) event)))
        with 6%nat by lia.
      cbn [replicate Nat.sub HID_KEYBOARD_MAX_KEYS]. by rewrite app_nil_r.
    + by rewrite keys_after_length.
    + unfold HID_KEYBOARD_MAX_KEYS. lia.
  - lia.
  - apply pressed_codes_sorted.
  - intros j. rewrite elem_of_pressed_codes_after by done. tauto.
Qed.

Lemma release_ends_roll_over_witness :
  ∃ kb' report,
    sc_key_processor_process_key
      {| key_processor := true; aoa := []; keys := keys_seven |}
      (key_event SDL_KEYUP 7 0) env_sample
    = Some kb'
    ∧ last_report (aoa kb') = Some report
    ∧ key_slots report = Z.of_nat <$> pressed_codes (keys kb')
    ∧ length (pressed_codes (keys kb')) = 6%nat
    ∧ StronglySorted lt (pressed_codes (keys kb'))
    ∧ ∀ j, j ∈ pressed_codes (keys kb')
           ↔ j ≠ key_index (key_event SDL_KEYUP 7 0)
             ∧ j ∈ pressed_codes keys_seven.
Proof.
  apply (release_ends_roll_over
           {| key_processor := true; aoa := []; keys := keys_seven |}
           (key_event SDL_KEYUP 7 0) env_sample).
  - reflexivity.
  - sample_send.
  - discriminate.
  - sample_code.
  - reflexivity.
  - reflexivity.
Defined.

(** ** Lifecycle *)

Section lifecycle.
Implicit Types (kb : hid_keyboard) (event : SDL_KeyboardEvent) (e : env)
  (a : aoa_t).

Lemma memset_all {A} (l : list A) (c : A) :
  memset l 0%nat c (length l) = Some (replicate (length l) c).
Proof.
  unfold memset. rewrite decide_True by (cbn [Nat.add]; lia). f_equal.
  rewrite <-(app_nil_r l) at 2.
  rewrite list_inserts_0_r by (by rewrite length_replicate).
  apply app_nil_r.
Qed.

Lemma hid_keyboard_init_ok kb a :
  length (keys kb) = HID_KEYBOARD_KEYS →
  hid_keyboard_init kb a true
  = Some (true,
          kb_reset
            (a ++ [setup_hid HID_KEYBOARD_ACCESSORY_ID keyboard_report_desc
                     63])).
Proof.
  intros Hlen. unfold hid_keyboard_init, aoa_setup_hid.
  rewrite ARRAY_LEN_keyboard_report_desc. cbn [negb].
  rewrite <-Hlen at 1. rewrite memset_all, bind_ret. unfold kb_reset.
  by rewrite Hlen.
Qed.

Lemma hid_keyboard_init_failed kb a :
  hid_keyboard_init kb a false
  = Some (false,
          {| key_processor := key_processor kb;
             aoa := a ++ [setup_hid HID_KEYBOARD_ACCESSORY_ID
                            keyboard_report_desc 63];
             keys := keys kb |}).
Proof.
  unfold hid_keyboard_init, aoa_setup_hid.
  by rewrite ARRAY_LEN_keyboard_report_desc.
Qed.

Lemma pressed_codes_single (k : nat) :
  (k < HID_KEYBOARD_KEYS)%nat →
  pressed_codes (<[k:=true]> (replicate HID_KEYBOARD_KEYS false)) = [k].
Proof.
  intros Hk. apply Permutation_singleton_r.
  rewrite pressed_codes_press by (by apply lookup_replicate_2).
  by rewrite pressed_codes_replicate_false.
Qed.

Lemma insert_false_replicate (k n : nat) :
  <[k:=false]> (replicate n false) = replicate n false.
Proof.
  destruct (decide (k < n)%nat).
  - apply list_insert_id. by apply lookup_replicate_2.
  - apply list_insert_ge. rewrite length_replicate. lia.
Qed.

Lemma report_of_single event (k : nat) :
  (k < 256)%nat →
  report_of event (<[k:=true]> (replicate HID_KEYBOARD_KEYS false))
  = [sdl_keymod_to_hid_modifiers (mod_ (keysym event)); 0; Z.of_nat k;
     0; 0; 0; 0; 0]
  ∨ (HID_KEYBOARD_KEYS ≤ k)%nat.
Proof.
  intros Hk. destruct (decide (k < HID_KEYBOARD_KEYS)%nat); [left|right; lia].
  unfold report_of. rewrite pressed_codes_single by done.
  by rewrite <-(code_byte_small k) by done.
Qed.

Lemma report_of_none event :
  report_of event (replicate HID_KEYBOARD_KEYS false)
  = [sdl_keymod_to_hid_modifiers (mod_ (keysym event)); 0; 0; 0; 0; 0; 0; 0].
Proof. unfold report_of. by rewrite pressed_codes_replicate_false. Qed.

Lemma slots_declared_range (keys : list bool) (c : Z) :
  length keys = HID_KEYBOARD_KEYS →
  c ∈ slots_after [] (pressed_codes keys) →
  0 ≤ c ≤ Z.of_nat HID_KEYBOARD_KEYS - 1.
Proof.
  intros Hlen. unfold slots_after. case_decide.
  - cbn [app]. intros [Hc|Hc]%elem_of_app.
    + apply list_elem_of_fmap in Hc as (j & -> & Hj%pressed_in_bound).
      rewrite code_byte_small; unfold HID_KEYBOARD_KEYS in *; lia.
    + apply elem_of_replicate_inv in Hc as ->.
      unfold HID_KEYBOARD_KEYS. lia.
  - intros ->%elem_of_replicate_inv.
    unfold HID_KEYBOARD_ERROR_ROLL_OVER, HID_KEYBOARD_KEYS. lia.
Qed.
End lifecycle.

(** X11. [hid_keyboard_init] resets the keyboard only when the transport
    accepts the descriptor: then it answers true, every entry of the table
    is false and the operations are installed; when the transport refuses it
    answers false and leaves the table and the operations as they were. *)
Theorem init_resets_only_on_success (kb : hid_keyboard) (a : aoa_t)
    (answer : bool) :
  length (keys kb) = HID_KEYBOARD_KEYS →
  ∃ kb',
    hid_keyboard_init kb a answer = Some (answer, kb')
    ∧ length (keys kb') = HID_KEYBOARD_KEYS
    ∧ (answer = true →
       key_processor kb' = true
       ∧ (∀ k, (k < HID_KEYBOARD_KEYS)%nat → keys kb' !! k = Some false)
       ∧ pressed_codes (keys kb') = [])
    ∧ (answer = false →
       key_processor kb' = key_processor kb ∧ keys kb' = keys kb).
Proof.
  intros Hlen. destruct answer.
  - eexists. split; [by apply hid_keyboard_init_ok|].
    cbn [kb_reset keys key_processor]. split_and!.
    + apply length_replicate.
    + intros _. split_and!; [done| |apply pressed_codes_replicate_false].
      intros k Hk. by apply lookup_replicate_2.
    + done.
  - eexists. split; [apply hid_keyboard_init_failed|].
    cbn [keys key_processor]. by split_and!.
Qed.

Lemma init_resets_only_on_success_witness :
  ∃ kb',
    hid_keyboard_init
      {| key_processor := false; aoa := []; keys := keys_seven |} [] true
    = Some (true, kb')
    ∧ length (keys kb') = HID_KEYBOARD_KEYS
    ∧ (true = true →
       key_processor kb' = true
       ∧ (∀ k, (k < HID_KEYBOARD_KEYS)%nat → keys kb' !! k = Some false)
       ∧ pressed_codes (keys kb') = [])
    ∧ (true = false →
       key_processor kb' = false ∧ keys kb' = keys_seven).
Proof.
  apply (init_resets_only_on_success
           {| key_processor := false; aoa := []; keys := keys_seven |} []
           true).
  reflexivity.
Defined.

(** X12. Keys recorded before a successful [hid_keyboard_init] are gone
    afterwards: the first event that sends a report sends the modifier byte
    of the event, a zero, and then the code of its key alone if it is a
    press of a key of the table, and six zeros in every other case. *)
Theorem first_report_after_init (kb : hid_keyboard) (a : aoa_t)
    (event : SDL_KeyboardEvent) (e : env) :
  length (keys kb) = HID_KEYBOARD_KEYS →
  sends_report event e →
  ∃ kb1 kb2 report,
    hid_keyboard_init kb a true = Some (true, kb1)
    ∧ sc_key_processor_process_key kb1 event e = Some kb2
    ∧ last_report (aoa kb2) = Some report
    ∧ (type event = SDL_KEYDOWN →
       scancode (keysym event) < Z.of_nat HID_KEYBOARD_KEYS →
       report
       = [sdl_keymod_to_hid_modifiers (mod_ (keysym event)); 0;
          scancode (keysym event); 0; 0; 0; 0; 0])
    ∧ (type event ≠ SDL_KEYDOWN
       ∨ Z.of_nat HID_KEYBOARD_KEYS ≤ scancode (keysym event) →
       report
       = [sdl_keymod_to_hid_modifiers (mod_ (keysym event)); 0;
          0; 0; 0; 0; 0; 0]).
Proof.
  intros Hlen Hsend.
  pose proof Hsend as (_ & Hsc%supported_nonneg & _).
  eexists. 
  destruct (process_key_sends
              (kb_reset
                 (a ++ [setup_hid HID_KEYBOARD_ACCESSORY_ID
                          keyboard_report_desc 63]))
              event e) as (kb2 & Hrun & _ & _ & Hlast);
    [apply length_replicate|done|].
  cbn [kb_reset keys] in Hlast.
  exists kb2, (report_of event
                 (keys_after (replicate HID_KEYBOARD_KEYS false) event)).
  split_and!.
  - by apply hid_keyboard_init_ok.
  - done.
  - done.
  - intros Hty Hin. rewrite keys_after_insert, Hty by done.
    cbn [Z.eqb Pos.eqb SDL_KEYDOWN].
    destruct (report_of_single event (key_index event)) as [->|Hout].
    + unfold key_index, HID_KEYBOARD_KEYS in *. lia.
    + unfold key_index. by rewrite Z2Nat.id.
    + unfold key_index in Hout. lia.
  - intros Hother.
    assert (keys_after (replicate HID_KEYBOARD_KEYS false) event
            = replicate HID_KEYBOARD_KEYS false) as ->.
    { destruct Hother as [Hty|Hout].
      - unfold keys_after. case_match; [|done].
        rewrite (proj2 (Z.eqb_neq _ _)) by done.
        apply insert_false_replicate.
      - by apply keys_after_out_of_table. }
    apply report_of_none.
Qed.

Lemma first_report_after_init_witness :
  ∃ kb1 kb2 report,
    hid_keyboard_init
      {| key_processor := false; aoa := []; keys := keys_seven |} [] true
    = Some (true, kb1)
    ∧ sc_key_processor_process_key kb1 press_a env_sample = Some kb2
    ∧ last_report (aoa kb2) = Some report
    ∧ (type press_a = SDL_KEYDOWN →
       scancode (keysym press_a) < Z.of_nat HID_KEYBOARD_KEYS →
       report
       = [sdl_keymod_to_hid_modifiers (mod_ (keysym press_a)); 0;
          scancode (keysym press_a); 0; 0; 0; 0; 0])
    ∧ (type press_a ≠ SDL_KEYDOWN
       ∨ Z.of_nat HID_KEYBOARD_KEYS ≤ scancode (keysym press_a) →
       report
       = [sdl_keymod_to_hid_modifiers (mod_ (keysym press_a)); 0;
          0; 0; 0; 0; 0; 0]).
Proof.
  apply (first_report_after_init
           {| key_processor := false; aoa := []; keys := keys_seven |} []
           press_a env_sample).
  - reflexivity.
  - sample_send.
Defined.

(** X13. The reports stay within what the descriptor announces for the key
    array: the number of key slots is the Report Count (6) of its last input
    item, and every slot value, the roll-over code included, lies between
    the Logical Minimum (0) and the Logical Maximum
    ([HID_KEYBOARD_KEYS - 1]) declared there. *)
Theorem slots_within_descriptor_range (kb : hid_keyboard) (hev : hid_event)
    (event : SDL_KeyboardEvent) (e : env) (content : nat → Z) :
  length (keys kb) = HID_KEYBOARD_KEYS →
  malloc_result e = Some content →
  0 ≤ scancode (keysym event) →
  ∃ kb' report minimum maximum count,
    convert_hid_keyboard_event kb hev event e
    = Some (true, kb',
            {| from_accessory_id := from_accessory_id hev;
               buffer := Some report; size := 8 |})
    ∧ keyboard_report_desc !! 52%nat = Some 0x15
    ∧ keyboard_report_desc !! 53%nat = Some minimum
    ∧ keyboard_report_desc !! 54%nat = Some 0x25
    ∧ keyboard_report_desc !! 55%nat = Some maximum
    ∧ keyboard_report_desc !! 58%nat = Some 0x95
    ∧ keyboard_report_desc !! 59%nat = Some count
    ∧ Z.of_nat (length (key_slots report)) = count
    ∧ ∀ c, c ∈ key_slots report → minimum ≤ c ≤ maximum.
Proof.
  intros Hlen He Hsc.
  eexists _, _, _, _, _.
  split; [by eapply convert_hid_keyboard_event_ok|].
  split_and!; [reflexivity..| |].
  - by rewrite key_slots_report_of, length_slots_after.
  - intros c. rewrite key_slots_report_of. intros Hc.
    apply slots_declared_range in Hc; [|by rewrite keys_after_length].
    exact Hc.
Qed.

Lemma slots_within_descriptor_range_witness :
  ∃ kb' report minimum maximum count,
    convert_hid_keyboard_event
      {| key_processor := true; aoa := []; keys := keys_seven |}
      stack_garbage press_lshift env_sample
    = Some (true, kb',
            {| from_accessory_id := from_accessory_id stack_garbage;
               buffer := Some report; size := 8 |})
    ∧ keyboard_report_desc !! 52%nat = Some 0x15
    ∧ keyboard_report_desc !! 53%nat = Some minimum
    ∧ keyboard_report_desc !! 54%nat = Some 0x25
    ∧ keyboard_report_desc !! 55%nat = Some maximum
    ∧ keyboard_report_desc !! 58%nat = Some 0x95
    ∧ keyboard_report_desc !! 59%nat = Some count
    ∧ Z.of_nat (length (key_slots report)) = count
    ∧ ∀ c, c ∈ key_slots report → minimum ≤ c ≤ maximum.
Proof.
  apply (slots_within_descriptor_range
           {| key_processor := true; aoa := []; keys := keys_seven |}
           stack_garbage press_lshift env_sample (λ _, 0xAA)).
  - reflexivity.
  - reflexivity.
  - sample_code.
Defined.

(** X14. A whole session: a successful [hid_keyboard_init], any run of
    events that do not trip the assertion, then [hid_keyboard_destroy].  The
    transport receives the registration of the descriptor, then well-formed
    reports (at most one per event), then the unregistration, all of them
    under accessory id 1; [hid_keyboard_destroy] leaves the table alone,
    whatever the transport answers. *)
Theorem session_requests (kb : hid_keyboard) (a : aoa_t)
    (steps : list (SDL_KeyboardEvent * env)) (answer : bool) :
  length (keys kb) = HID_KEYBOARD_KEYS →
  Forall (λ s, admissible s.1) steps →
  ∃ kb1 kb2 reports,
    hid_keyboard_init kb a true = Some (true, kb1)
    ∧ process_keys kb1 steps = Some kb2
    ∧ aoa (hid_keyboard_destroy kb2 answer)
      = a ++ setup_hid HID_KEYBOARD_ACCESSORY_ID keyboard_report_desc 63
             :: reports ++ [unregister_hid HID_KEYBOARD_ACCESSORY_ID]
    ∧ (length reports ≤ length steps)%nat
    ∧ Forall (λ r, is_boot_report r = true) reports
    ∧ Forall (λ r, request_id r = HID_KEYBOARD_ACCESSORY_ID)
        (setup_hid HID_KEYBOARD_ACCESSORY_ID keyboard_report_desc 63
           :: reports ++ [unregister_hid HID_KEYBOARD_ACCESSORY_ID])
    ∧ keys (hid_keyboard_destroy kb2 answer) = keys kb2.
Proof.
  intros Hlen Hall.
  destruct (process_keys_admissible steps
              (kb_reset
                 (a ++ [setup_hid HID_KEYBOARD_ACCESSORY_ID
                          keyboard_report_desc 63])))
    as (kb2 & reports & Hrun & _ & _ & Haoa & Hcount & Hboot & Hid & _);
    [apply length_replicate|done|].
  cbn [kb_reset aoa] in Haoa.
  eexists _, kb2, reports. split_and!.
  - by apply hid_keyboard_init_ok.
  - done.
  - unfold hid_keyboard_destroy, aoa_unregister_hid. cbn [aoa].
    rewrite Haoa, <-!app_assoc. reflexivity.
  - done.
  - done.
  - constructor; [reflexivity|]. apply Forall_app. split; [done|].
    by constructor.
  - reflexivity.
Qed.

Lemma session_requests_witness :
  ∃ kb1 kb2 reports,
    hid_keyboard_init
      {| key_processor := false; aoa := []; keys := keys_seven |} [] true
    = Some (true, kb1)
    ∧ process_keys kb1 [(press_a, env_sample); (release_a, env_null)]
      = Some kb2
    ∧ aoa (hid_keyboard_destroy kb2 false)
      = [] ++ setup_hid HID_KEYBOARD_ACCESSORY_ID keyboard_report_desc 63
              :: reports ++ [unregister_hid HID_KEYBOARD_ACCESSORY_ID]
    ∧ (length reports
       ≤ length [(press_a, env_sample); (release_a, env_null)])%nat
    ∧ Forall (λ r, is_boot_report r = true) reports
    ∧ Forall (λ r, request_id r = HID_KEYBOARD_ACCESSORY_ID)
        (setup_hid HID_KEYBOARD_ACCESSORY_ID keyboard_report_desc 63
           :: reports ++ [unregister_hid HID_KEYBOARD_ACCESSORY_ID])
    ∧ keys (hid_keyboard_destroy kb2 false) = keys kb2.
Proof.
  apply (session_requests
           {| key_processor := false; aoa := []; keys := keys_seven |} []
           [(press_a, env_sample); (release_a, env_null)] false).
  - reflexivity.
  - repeat (apply Forall_cons; split; [right; sample_code|]). constructor.
Defined.

(** ** Events on several keys *)

Section several.
Implicit Types (event : SDL_KeyboardEvent) (keys : list bool).

Lemma keys_after_commute keys event1 event2 :
  0 ≤ scancode (keysym event1) →
  0 ≤ scancode (keysym event2) →
  scancode (keysym event1) ≠ scancode (keysym event2) →
  keys_after (keys_after keys event1) event2
  = keys_after (keys_after keys event2) event1.
Proof.
  intros H1 H2 Hne. unfold keys_after. repeat case_match; try done.
  apply list_insert_insert_ne. lia.
Qed.

Lemma keys_after_last_wins keys event1 event2 :
  scancode (keysym event1) = scancode (keysym event2) →
  keys_after (keys_after keys event1) event2 = keys_after keys event2.
Proof.
  intros Hsame. unfold keys_after. rewrite Hsame. case_match; [|done].
  apply list_insert_insert_eq.
Qed.

Lemma sends_report_nonneg event (e : env) :
  sends_report event e → 0 ≤ scancode (keysym event).
Proof. intros (_ & Hsup & _). by apply supported_nonneg. Qed.
End several.

(** X15. [scancode_is_modifier] accepts exactly the eight modifier key codes
    of SDL, and none of them is an index of the table: the two alternatives
    of the test in [hid_keyboard_convert_event] never hold together. *)
Theorem modifier_codes_are_the_eight (sc : Z) :
  (scancode_is_modifier sc = true ↔ sc ∈ modifier_scancodes)
  ∧ (scancode_is_modifier sc = true →
     (sc <? Z.of_nat HID_KEYBOARD_KEYS) = false).
Proof.
  unfold scancode_is_modifier, modifier_scancodes.
  rewrite andb_true_iff, !Z.leb_le, Z.ltb_ge, !elem_of_cons, elem_of_nil.
  unfold SDL_SCANCODE_LCTRL, SDL_SCANCODE_LSHIFT, SDL_SCANCODE_LALT,
    SDL_SCANCODE_LGUI, SDL_SCANCODE_RCTRL, SDL_SCANCODE_RSHIFT,
    SDL_SCANCODE_RALT, SDL_SCANCODE_RGUI, HID_KEYBOARD_KEYS.
  lia.
Qed.

(** X16. Events on two different keys can be handled in either order: the
    table is the same afterwards, whether they are presses or releases, keys
    of the table or modifier keys. *)
Theorem events_on_different_keys_commute (kb : hid_keyboard)
    (event1 event2 : SDL_KeyboardEvent) (e1 e2 : env) :
  length (keys kb) = HID_KEYBOARD_KEYS →
  sends_report event1 e1 →
  sends_report event2 e2 →
  scancode (keysym event1) ≠ scancode (keysym event2) →
  ∃ kb12 kb21,
    process_keys kb [(event1, e1); (event2, e2)] = Some kb12
    ∧ process_keys kb [(event2, e2); (event1, e1)] = Some kb21
    ∧ keys kb12 = keys kb21.
Proof.
  intros Hlen Hsend1 Hsend2 Hne.
  destruct (process_key_sends kb event1 e1 Hlen Hsend1)
    as (kb1 & Hrun1 & Hkeys1 & Hlen1 & _).
  destruct (process_key_sends kb1 event2 e2 Hlen1 Hsend2)
    as (kb12 & Hrun12 & Hkeys12 & _ & _).
  destruct (process_key_sends kb event2 e2 Hlen Hsend2)
    as (kb2 & Hrun2 & Hkeys2 & Hlen2 & _).
  destruct (process_key_sends kb2 event1 e1 Hlen2 Hsend1)
    as (kb21 & Hrun21 & Hkeys21 & _ & _).
  exists kb12, kb21. cbn [process_keys].
  rewrite Hrun1, bind_ret, Hrun12, bind_ret.
  rewrite Hrun2, bind_ret, Hrun21, bind_ret.
  split_and!; [done..|].
  rewrite Hkeys12, Hkeys1, Hkeys21, Hkeys2.
  apply keys_after_commute; eauto using sends_report_nonneg.
Qed.

Lemma events_on_different_keys_commute_witness :
  ∃ kb12 kb21,
    process_keys (kb_reset [])
      [(press_a, env_sample); (press_lshift, env_sample)]
    = Some kb12
    ∧ process_keys (kb_reset [])
        [(press_lshift, env_sample); (press_a, env_sample)]
      = Some kb21
    ∧ keys kb12 = keys kb21.
Proof.
  apply (events_on_different_keys_commute (kb_reset []) press_a press_lshift
           env_sample env_sample).
  - reflexivity.
  - sample_send.
  - sample_send.
  - discriminate.
Defined.

(** X17. Of two events on the same key handled one after the other, only
    the second counts for the table: it is the table the second event alone
    would have left. *)
Theorem last_event_on_a_key_wins (kb : hid_keyboard)
    (event1 event2 : SDL_KeyboardEvent) (e1 e2 e : env) :
  length (keys kb) = HID_KEYBOARD_KEYS →
  sends_report event1 e1 →
  sends_report event2 e2 →
  sends_report event2 e →
  scancode (keysym event1) = scancode (keysym event2) →
  ∃ kb12 kb2,
    process_keys kb [(event1, e1); (event2, e2)] = Some kb12
    ∧ sc_key_processor_process_key kb event2 e = Some kb2
    ∧ keys kb12 = keys kb2
    ∧ last_report (aoa kb12) = last_report (aoa kb2).
Proof.
  intros Hlen Hsend1 Hsend2 Hsend Hsame.
  destruct (process_key_sends kb event1 e1 Hlen Hsend1)
    as (kb1 & Hrun1 & Hkeys1 & Hlen1 & _).
  destruct (process_key_sends kb1 event2 e2 Hlen1 Hsend2)
    as (kb12 & Hrun12 & Hkeys12 & _ & Hlast12).
  destruct (process_key_sends kb event2 e Hlen Hsend)
    as (kb2 & Hrun2 & Hkeys2 & _ & Hlast2).
  exists kb12, kb2. cbn [process_keys].
  rewrite Hrun1, bind_ret, Hrun12, bind_ret.
  assert (keys_after (keys kb1) event2 = keys_after (keys kb) event2) as Heq
    by (rewrite Hkeys1; by apply keys_after_last_wins).
  split_and!; [done..| |].
  - by rewrite Hkeys12, Hkeys2.
  - by rewrite Hlast12, Hlast2, Heq.
Qed.

Lemma last_event_on_a_key_wins_witness :
  ∃ kb12 kb2,
    process_keys (kb_reset [])
      [(press_a, env_sample); (release_a, env_sample)]
    = Some kb12
    ∧ sc_key_processor_process_key (kb_reset []) release_a env_sample
      = Some kb2
    ∧ keys kb12 = keys kb2
    ∧ last_report (aoa kb12) = last_report (aoa kb2).
Proof.
  apply (last_event_on_a_key_wins (kb_reset []) press_a release_a env_sample
           env_sample env_sample).
  - reflexivity.
  - sample_send.
  - sample_send.
  - sample_send.
  - reflexivity.
Defined.
